(** * Realtime synchronisation layer of the pair-trading dashboard

    A shallow embedding of the two JavaScript modules that carry the
    realtime logic of the dashboard:

    - [contexts/RealtimeContext]: [initialState], [realtimeReducer],
      [handleWebSocketMessage] and the [actions] object;
    - [hooks/useWebSocket]: [connect], the four socket handlers,
      [disconnect], [sendMessage] and the effect that connects on mount.

    JavaScript objects are finite maps from property keys to values,
    arrays are lists, exceptions are an explicit [Throw] result, and the
    mutable cells of the hook (React state, refs, the sockets and timers
    owned by the browser) are fields of one record that every operation
    takes and returns.  A callback called on its own reads the current
    cells, and [dispatch] runs the reducer at once.  The renders of the
    hook, at which React runs its effect again, are steps of their own
    ([render]), in which the cleanup reads the [socket] of the render that
    installed it. *)

From stdpp Require Import gmap strings list fin_maps pretty.

Set Warnings "-register-all".
Local Open Scope string_scope.
Local Open Scope list_scope.
Local Open Scope nat_scope.

(** ** Completions *)

Inductive exn : Type := TypeError | ReferenceError | SyntaxError.

(** A computation either completes normally with a value or throws. *)
Inductive result (A : Type) : Type :=
  | Ok (a : A)
  | Throw (e : exn).
Arguments Ok {A} a.
Arguments Throw {A} e.

(** Sequencing: a throw in the first computation skips the rest.  With this
    instance [x ← r; k] reads as the statements of the source do. *)
#[global] Instance result_bind : MBind result := fun A B k r =>
  match r with
  | Ok a => k a
  | Throw e => Throw e
  end.

(** ** JavaScript values *)

Section Model.

(** The host's Number type (IEEE doubles) and the internal time value of a
    [Date] object are kept abstract. *)
Context {num date : Type}.

Inductive value : Type :=
  | VUndefined
  | VNull
  | VBool (b : bool)
  | VNum (n : num)
  | VStr (s : string)
  | VDate (d : date)
  | VArr (l : list value)
  | VObj (m : gmap string value).

(** Built-in operations of the language and of the browser that the two
    modules call.  They are parameters of the model: every theorem holds
    for each way the host may implement them. *)
Class Builtins : Type := {
  (** the literal [0] of [initialState.systemStatus.connections] *)
  Number_zero : num;
  (** [Number::toString], used when a number becomes a property key *)
  Number_toString : num -> string;
  (** [ToBoolean] on numbers: false on [0] and [NaN] *)
  Number_toBoolean : num -> bool;
  (** [ToPrimitive] with hint string followed by [ToString], on arrays,
      dates and plain objects; it throws a TypeError on an object whose own
      [toString] and [valueOf] are not callable *)
  Object_toString : value -> result string;
  (** the own enumerable properties of an array or of a string (its
      indices), which is what object spread copies from them *)
  Exotic_ownProps : value -> gmap string value;
  (** [new Date(v)] *)
  Date_new : value -> result date;
  (** [JSON.stringify] on a tree of values *)
  JSON_stringify : value -> string;
  (** [JSON.parse]; throws a SyntaxError on malformed text *)
  JSON_parse : string -> result value;
  (** whether [new WebSocket(url)] constructs a socket for the URL of the
      hook (it throws a SyntaxError otherwise) *)
  WebSocket_url_ok : bool
}.

Context `{!Builtins}.

(** [ToString], which on the values of this model is also [ToPropertyKey]. *)
Definition ToString (v : value) : result string :=
  match v with
  | VUndefined => Ok "undefined"
  | VNull => Ok "null"
  | VBool true => Ok "true"
  | VBool false => Ok "false"
  | VNum n => Ok (Number_toString n)
  | VStr s => Ok s
  | VDate _ | VArr _ | VObj _ => Object_toString v
  end.

(** [ToBoolean]: the falsy values are [undefined], [null], [false], [0],
    [NaN] and the empty string. *)
Definition ToBoolean (v : value) : bool :=
  match v with
  | VUndefined | VNull => false
  | VBool b => b
  | VNum n => Number_toBoolean n
  | VStr s => negb (String.eqb s "")
  | VDate _ | VArr _ | VObj _ => true
  end.

(** Property read [v.k] for the property names the two modules read
    ([type], [data], [pair_id], [symbol], [timestamp], [message]).  None of
    them is a member of a built-in prototype, so on a primitive, an array
    or a date the read yields [undefined]; on [undefined] and [null] it
    throws. *)
Definition Get (v : value) (k : string) : result value :=
  match v with
  | VUndefined | VNull => Throw TypeError
  | VObj m => Ok (default VUndefined (m !! k))
  | _ => Ok VUndefined
  end.

(** Object spread [{...v}]: the own enumerable properties of [v].
    Spreading [undefined], [null], a boolean or a number copies nothing. *)
Definition spread (v : value) : gmap string value :=
  match v with
  | VObj m => m
  | VArr _ | VStr _ => Exotic_ownProps v
  | _ => ∅
  end.

(** [{...a, ...b}] on property maps: the properties of [b] win. *)
Definition merge_props (a b : gmap string value) : gmap string value := b ∪ a.

(** ** RealtimeContext: state and reducer *)

Record State : Type := mkState {
  pairs : gmap string (gmap string value);
  alerts : list value;
  prices : gmap string value;
  systemStatus : gmap string value
}.

Definition initialState : State :=
  {| pairs := ∅;
     alerts := [];
     prices := ∅;
     systemStatus :=
       {[ "monitoring" := VBool false; "connections" := VNum Number_zero ]} |}.

(** The actions [dispatch] receives.  [OTHER] stands for an action whose
    type is none of the five [ActionTypes]. *)
Inductive Action : Type :=
  | UPDATE_PAIR (payload : value)
  | ADD_ALERT (payload : value)
  | UPDATE_PRICE (payload : value)
  | UPDATE_SYSTEM_STATUS (payload : value)
  | CLEAR_ALERTS
  | OTHER.

(** [state.pairs[k]] spread into an object literal.  A key with no entry
    reads as [undefined] (or as an inherited member of [Object.prototype],
    which has no own enumerable property): nothing is copied. *)
Definition pair_entry (state : State) (k : string) : gmap string value :=
  default ∅ (pairs state !! k).

Definition realtimeReducer (state : State) (action : Action) : result State :=
  match action with
  | UPDATE_PAIR payload =>
      pid ← Get payload "pair_id";
      k ← ToString pid;
      Ok {| pairs := <[k := merge_props (pair_entry state k) (spread payload)]>
                       (pairs state);
            alerts := alerts state;
            prices := prices state;
            systemStatus := systemStatus state |}
  | ADD_ALERT payload =>
      Ok {| pairs := pairs state;
            alerts := payload :: take 49 (alerts state);
            prices := prices state;
            systemStatus := systemStatus state |}
  | UPDATE_PRICE payload =>
      sym ← Get payload "symbol";
      k ← ToString sym;
      Ok {| pairs := pairs state;
            alerts := alerts state;
            prices := <[k := payload]> (prices state);
            systemStatus := systemStatus state |}
  | UPDATE_SYSTEM_STATUS payload =>
      Ok {| pairs := pairs state;
            alerts := alerts state;
            prices := prices state;
            systemStatus := merge_props (systemStatus state) (spread payload) |}
  | CLEAR_ALERTS =>
      Ok {| pairs := pairs state;
            alerts := [];
            prices := prices state;
            systemStatus := systemStatus state |}
  | OTHER => Ok state
  end.

(** ** useWebSocket: the connection hook *)

Inductive ReadyState : Type := CONNECTING | OPEN | CLOSING | CLOSED.

#[global] Instance ReadyState_eq_dec : EqDecision ReadyState.
Proof. solve_decision. Defined.

(** A [WebSocket] object of the browser: its [readyState] and the frames
    handed to its [send] method, oldest first. *)
Record WebSocket : Type := mkWebSocket {
  readyState : ReadyState;
  sent : list string
}.

(** The two callbacks the hook registers with the browser's timers: the
    reconnect closure of [ws.onclose] and the ping closure of [ws.onopen]
    (which captures its socket). *)
Inductive Callback : Type :=
  | ReconnectCallback
  | PingCallback (ws : nat).

(** A timer created by [setTimeout] ([repeating = false]) or by
    [setInterval] ([repeating = true]), with its delay in milliseconds.  A
    timer stops being [active] when it is cleared or, for a timeout, when
    it has fired. *)
Record Timer : Type := mkTimer {
  timer_delay : Z;
  timer_callback : Callback;
  timer_repeating : bool;
  timer_active : bool
}.

(** The cells of one mounted hook, together with the sockets and timers it
    has created in the browser.  A socket or a timer is identified by its
    position in [sockets] or [timers]; [None] is JavaScript's [null]. *)
Record Hook : Type := mkHook {
  socket : option nat;
  isConnected : bool;
  lastMessage : value;
  connectionError : option string;
  reconnectTimeoutRef : option nat;
  reconnectAttemptsRef : nat;
  sockets : list WebSocket;
  timers : list Timer
}.

Definition useWebSocket_init : Hook :=
  {| socket := None;
     isConnected := false;
     lastMessage := VNull;
     connectionError := None;
     reconnectTimeoutRef := None;
     reconnectAttemptsRef := 0;
     sockets := [];
     timers := [] |}.

Definition maxReconnectAttempts : nat := 5.

(** Field updates. *)
Definition setSocket (v : option nat) (h : Hook) : Hook :=
  mkHook v (isConnected h) (lastMessage h) (connectionError h)
    (reconnectTimeoutRef h) (reconnectAttemptsRef h) (sockets h) (timers h).
Definition setIsConnected (v : bool) (h : Hook) : Hook :=
  mkHook (socket h) v (lastMessage h) (connectionError h)
    (reconnectTimeoutRef h) (reconnectAttemptsRef h) (sockets h) (timers h).
Definition setLastMessage (v : value) (h : Hook) : Hook :=
  mkHook (socket h) (isConnected h) v (connectionError h)
    (reconnectTimeoutRef h) (reconnectAttemptsRef h) (sockets h) (timers h).
Definition setConnectionError (v : option string) (h : Hook) : Hook :=
  mkHook (socket h) (isConnected h) (lastMessage h) v
    (reconnectTimeoutRef h) (reconnectAttemptsRef h) (sockets h) (timers h).
Definition setReconnectTimeoutRef (v : option nat) (h : Hook) : Hook :=
  mkHook (socket h) (isConnected h) (lastMessage h) (connectionError h)
    v (reconnectAttemptsRef h) (sockets h) (timers h).
Definition setReconnectAttemptsRef (v : nat) (h : Hook) : Hook :=
  mkHook (socket h) (isConnected h) (lastMessage h) (connectionError h)
    (reconnectTimeoutRef h) v (sockets h) (timers h).
Definition setSockets (v : list WebSocket) (h : Hook) : Hook :=
  mkHook (socket h) (isConnected h) (lastMessage h) (connectionError h)
    (reconnectTimeoutRef h) (reconnectAttemptsRef h) v (timers h).
Definition setTimers (v : list Timer) (h : Hook) : Hook :=
  mkHook (socket h) (isConnected h) (lastMessage h) (connectionError h)
    (reconnectTimeoutRef h) (reconnectAttemptsRef h) (sockets h) v.

(** *** Browser primitives *)

(** [ws.readyState === WebSocket.OPEN] *)
Definition is_open (h : Hook) (ws : nat) : bool :=
  match sockets h !! ws with
  | Some w => bool_decide (readyState w = OPEN)
  | None => false
  end.

(** [ws.send(frame)] on an open socket. *)
Definition ws_send (ws : nat) (frame : string) (h : Hook) : Hook :=
  setSockets
    (alter (fun w => mkWebSocket (readyState w) (sent w ++ [frame])) ws (sockets h))
    h.

(** [ws.close(code, reason)]: a socket that is not yet closed starts its
    closing handshake; the close event comes later, from the browser. *)
Definition ws_close (ws : nat) (h : Hook) : Hook :=
  setSockets
    (alter (fun w => match readyState w with
                     | CLOSED => w
                     | _ => mkWebSocket CLOSING (sent w)
                     end) ws (sockets h))
    h.

(** [setTimeout(cb, delay)] and [setInterval(cb, delay)]: the new timer and
    its identifier. *)
Definition setTimer (repeating : bool) (cb : Callback) (delay : Z) (h : Hook)
  : Hook * nat :=
  (setTimers (timers h ++ [mkTimer delay cb repeating true]) h, length (timers h)).

(** [clearTimeout(id)] and [clearInterval(id)]. *)
Definition clearTimer (id : nat) (h : Hook) : Hook :=
  setTimers
    (alter (fun t => mkTimer (timer_delay t) (timer_callback t)
                       (timer_repeating t) false) id (timers h))
    h.

(** *** The body of the hook *)

(** [connect]: [new WebSocket(url)] inside [try], the four handlers are
    attached (they are [ws_onopen] ... [ws_onerror] below), then
    [setSocket(ws)]; the [catch] arm records the error. *)
Definition connect (h : Hook) : Hook :=
  if WebSocket_url_ok then
    let ws := length (sockets h) in
    setSocket (Some ws) (setSockets (sockets h ++ [mkWebSocket CONNECTING []]) h)
  else
    setConnectionError (Some "Failed to create WebSocket connection") h.

Definition ping_frame : string :=
  JSON_stringify (VObj {[ "type" := VStr "ping" ]}).

Definition ws_onopen (ws : nat) (h : Hook) : Hook :=
  let h := setIsConnected true h in
  let h := setConnectionError None h in
  let h := setReconnectAttemptsRef 0 h in
  fst (setTimer true (PingCallback ws) 30000%Z h).

(** The ping closure; [pingInterval] is the identifier of its own timer. *)
Definition ping_tick (ws pingInterval : nat) (h : Hook) : Hook :=
  if is_open h ws then ws_send ws ping_frame h
  else clearTimer pingInterval h.

Definition ws_onmessage (event_data : string) (h : Hook) : Hook :=
  match JSON_parse event_data with
  | Ok data => setLastMessage data h
  | Throw _ => h
  end.

(** [Math.pow(2, attempts) * 1000] *)
Definition backoff_timeout (attempts : nat) : Z :=
  (2 ^ Z.of_nat attempts * 1000)%Z.

Definition ws_onclose (event_code : Z) (h : Hook) : Hook :=
  let h := setIsConnected false h in
  let h := setSocket None h in
  if bool_decide (event_code ≠ 1000%Z)
     && bool_decide (reconnectAttemptsRef h < maxReconnectAttempts)%nat
  then
    let timeout := backoff_timeout (reconnectAttemptsRef h) in
    let '(h, id) := setTimer false ReconnectCallback timeout h in
    setReconnectTimeoutRef (Some id) h
  else h.

(** The closure handed to [setTimeout] by [ws_onclose]. *)
Definition reconnect_callback (h : Hook) : Hook :=
  let h := setReconnectAttemptsRef (S (reconnectAttemptsRef h)) h in
  connect h.

Definition ws_onerror (h : Hook) : Hook :=
  setConnectionError (Some "WebSocket connection error") h.

(** [disconnect]; a timer identifier is never falsy. *)
Definition disconnect (h : Hook) : Hook :=
  let h := match reconnectTimeoutRef h with
           | Some id => clearTimer id h
           | None => h
           end in
  match socket h with
  | Some ws => ws_close ws h
  | None => h
  end.

Definition sendMessage (message : value) (h : Hook) : Hook * bool :=
  match socket h with
  | Some ws =>
      if is_open h ws then (ws_send ws (JSON_stringify message) h, true)
      else (h, false)
  | None => (h, false)
  end.

(** *** Events delivered by the browser *)

(** The socket [ws], still connecting, opens. *)
Definition ev_open (ws : nat) (h : Hook) : Hook :=
  match sockets h !! ws with
  | Some w =>
      match readyState w with
      | CONNECTING =>
          ws_onopen ws (setSockets (<[ws := mkWebSocket OPEN (sent w)]> (sockets h)) h)
      | _ => h
      end
  | None => h
  end.

(** The socket [ws], not yet closed, closes with [code]. *)
Definition ev_close (ws : nat) (code : Z) (h : Hook) : Hook :=
  match sockets h !! ws with
  | Some w =>
      match readyState w with
      | CLOSED => h
      | _ =>
          ws_onclose code
            (setSockets (<[ws := mkWebSocket CLOSED (sent w)]> (sockets h)) h)
      end
  | None => h
  end.

(** The timer [id] runs out.  A cleared timer, and a timeout that has
    already fired, do nothing. *)
Definition ev_timer (id : nat) (h : Hook) : Hook :=
  match timers h !! id with
  | Some t =>
      if timer_active t then
        let h := if timer_repeating t then h else clearTimer id h in
        match timer_callback t with
        | ReconnectCallback => reconnect_callback h
        | PingCallback ws => ping_tick ws id h
        end
      else h
  | None => h
  end.

(** *** Observations on a hook *)

(** A transport is live while it is connecting or open. *)
Definition live (w : WebSocket) : bool :=
  match readyState w with
  | CONNECTING | OPEN => true
  | CLOSING | CLOSED => false
  end.

Definition live_count (h : Hook) : nat := length (List.filter live (sockets h)).

(** The hook holds a socket that is connecting or connected. *)
Definition busy (h : Hook) : Prop :=
  ∃ ws w, socket h = Some ws ∧ sockets h !! ws = Some w ∧ live w = true.

(** The hook holds an open socket. *)
Definition connected (h : Hook) : Prop :=
  ∃ ws w, socket h = Some ws ∧ sockets h !! ws = Some w ∧ readyState w = OPEN.

(** The reconnect timeout the hook last set has neither fired nor been
    cleared. *)
Definition reconnect_pending (h : Hook) : bool :=
  match reconnectTimeoutRef h with
  | Some id =>
      match timers h !! id with
      | Some t => timer_active t
      | None => false
      end
  | None => false
  end.

(** The socket the hook holds closes with [code]. *)
Definition closure (code : Z) (h : Hook) : Hook :=
  match socket h with
  | Some ws => ev_close ws code h
  | None => h
  end.

(** The timeout named by [reconnectTimeoutRef] runs out. *)
Definition timeout_elapses (h : Hook) : Hook :=
  match reconnectTimeoutRef h with
  | Some id => ev_timer id h
  | None => h
  end.

(** The timeout [ws.onclose] sets at counter [attempt], and the same
    timeout once [clearTimeout] has cancelled it. *)
Definition armed_reconnect (attempt : nat) : Timer :=
  mkTimer (backoff_timeout attempt) ReconnectCallback false true.

Definition cleared_reconnect (attempt : nat) : Timer :=
  mkTimer (backoff_timeout attempt) ReconnectCallback false false.

(** *** The effect of the hook *)

(** [disconnect] as [useCallback(..., [socket])] memoised it at a render
    where the state [socket] was [captured]. *)
Definition disconnect_of (captured : option nat) (h : Hook) : Hook :=
  let h := match reconnectTimeoutRef h with
           | Some id => clearTimer id h
           | None => h
           end in
  match captured with
  | Some ws => ws_close ws h
  | None => h
  end.

(** A mounted hook as React holds it: the cells, and the value the state
    [socket] had at the last render.  [disconnect] is memoised on [socket]
    and is a dependency of
    [useEffect(() => { connect(); return () => { disconnect() } }, [connect, disconnect])]
    ([connect] is memoised on the URL and never changes), so the cleanup
    that is installed closes over [rendered_socket], and the effect runs
    again at the first render that sees another [socket]. *)
Record Mounted : Type := mkMounted {
  cells : Hook;
  rendered_socket : option nat
}.

(** The first render, with [socket] null, and its effect: [connect()]. *)
Definition mount : Mounted := mkMounted (connect useWebSocket_init) None.

(** A later render.  When [socket] is what the last render saw, no
    dependency of the effect has changed and nothing runs.  Otherwise
    React runs the cleanup of the installed effect, then the effect. *)
Definition render (m : Mounted) : Mounted :=
  if decide (socket (cells m) = rendered_socket m) then m
  else mkMounted (connect (disconnect_of (rendered_socket m) (cells m)))
         (socket (cells m)).

(** The socket the hook holds closes between two renders. *)
Definition held_closes (code : Z) (m : Mounted) : Mounted :=
  mkMounted (closure code (cells m)) (rendered_socket m).

(** The next render will run the effect again and find the hook with a
    live socket and no reconnect timeout pending. *)
Definition effect_due (m : Mounted) : Prop :=
  ∃ ws w, socket (cells m) = Some ws ∧ sockets (cells m) !! ws = Some w
          ∧ live w = true
          ∧ rendered_socket m ≠ Some ws
          ∧ reconnect_pending (cells m) = false.

(** The same after at least one render that saw a socket. *)
Definition spinning (m : Mounted) : Prop :=
  effect_due m ∧ is_Some (rendered_socket m).

(** One round of a reconnection: the held socket closes with the code of
    the round, React renders twice, and then as many times more as the
    round says, before anything else happens. *)
Definition reconnect_round (round : Z * nat) (m : Mounted) : Mounted :=
  Nat.iter round.2 render (render (render (held_closes round.1 m))).

Definition reconnect_rounds (rounds : list (Z * nat)) (m : Mounted) : Mounted :=
  foldl (fun m round => reconnect_round round m) m rounds.

(** ** RealtimeContext: the provider *)

(** [Notification.permission] *)
Inductive Permission : Type := default_ | granted | denied.

#[global] Instance Permission_eq_dec : EqDecision Permission.
Proof. solve_decision. Defined.

(** One mounted [RealtimeProvider]: its hook, the reducer state, whether
    the window has a [Notification] constructor (and its permission), and
    the notifications shown so far as title and body, oldest first. *)
Record Provider : Type := mkProvider {
  hook : Hook;
  state : State;
  window_Notification : option Permission;
  shown : list (string * string)
}.

Definition RealtimeProvider_init (win : option Permission) : Provider :=
  {| hook := connect useWebSocket_init;
     state := initialState;
     window_Notification := win;
     shown := [] |}.

(** [dispatch(action)]: the reducer runs on the current state.  An
    exception of the reducer escapes to the caller. *)
Definition dispatch (action : Action) (p : Provider) : result Provider :=
  st ← realtimeReducer (state p) action;
  Ok (mkProvider (hook p) st (window_Notification p) (shown p)).

(** A [case 'k':] label of the [switch (message.type)]: strict equality
    with a string literal. *)
Definition is_case (v : value) (label : string) : bool :=
  match v with
  | VStr s => String.eqb s label
  | _ => false
  end.

(** The payload of the [ADD_ALERT] action, the object literal
    [{...message.data, id: Date.now(), timestamp: new Date(message.data.timestamp)}];
    [now] is what [Date.now()] returns. *)
Definition alert_payload (now : num) (data : value) : result value :=
  let fields := spread data in
  timestamp ← Get data "timestamp";
  d ← Date_new timestamp;
  Ok (VObj (<["timestamp" := VDate d]> (<["id" := VNum now]> fields))).

(** Title and body of the browser notification of an alert: the template
    literal and the [body] option are converted to strings. *)
Definition notification_of (data : value) : result (string * string) :=
  ty ← Get data "type";
  title ← ToString ty;
  msg ← Get data "message";
  body ← ToString msg;
  Ok (("Pair Trading Alert: " ++ title)%string, body).

(** [if ('Notification' in window && Notification.permission === 'granted')
    new Notification(...)] *)
Definition show_notification (data : value) (p : Provider) : result Provider :=
  match window_Notification p with
  | Some granted =>
      tb ← notification_of data;
      Ok (mkProvider (hook p) (state p) (window_Notification p) (shown p ++ [tb]))
  | _ => Ok p
  end.

(** [handleWebSocketMessage(message)]; [now] is what [Date.now()] returns
    during the call. *)
Definition handleWebSocketMessage (now : num) (message : value) (p : Provider)
  : result Provider :=
  type ← Get message "type";
  if is_case type "pair_update" then
    data ← Get message "data";
    dispatch (UPDATE_PAIR data) p
  else if is_case type "alert" then
    data ← Get message "data";
    payload ← alert_payload now data;
    p ← dispatch (ADD_ALERT payload) p;
    show_notification data p
  else if is_case type "price_update" then
    data ← Get message "data";
    dispatch (UPDATE_PRICE data) p
  else if is_case type "system_status" then
    data ← Get message "data";
    dispatch (UPDATE_SYSTEM_STATUS data) p
  else if is_case type "pong" then
    Ok p
  else
    Ok p.

(** The effect on [lastMessage]: a falsy message is skipped. *)
Definition on_lastMessage (now : num) (message : value) (p : Provider)
  : result Provider :=
  if ToBoolean message then handleWebSocketMessage now message p else Ok p.

(** The effect run on each message of a stream in arrival order, every
    message paired with the clock reading during its handling.  An
    exception that escapes the effect ends the provider. *)
Fixpoint process (stream : list (num * value)) (p : Provider) : result Provider :=
  match stream with
  | [] => Ok p
  | (now, message) :: rest =>
      p ← on_lastMessage now message p;
      process rest p
  end.

(** *** The [actions] object *)

Definition with_hook (hp : Hook * bool) (p : Provider) : Provider :=
  mkProvider (fst hp) (state p) (window_Notification p) (shown p).

Definition startMonitoring (p : Provider) : Provider :=
  with_hook (sendMessage (VObj {[ "type" := VStr "start_monitoring" ]}) (hook p)) p.

Definition stopMonitoring (p : Provider) : Provider :=
  with_hook (sendMessage (VObj {[ "type" := VStr "stop_monitoring" ]}) (hook p)) p.

Definition subscribeToPair (pairId : value) (p : Provider) : Provider :=
  with_hook
    (sendMessage (VObj {[ "type" := VStr "subscribe_pair"; "pair_id" := pairId ]})
       (hook p)) p.

Definition clearAlerts (p : Provider) : result Provider :=
  dispatch CLEAR_ALERTS p.

(** [requestNotificationPermission]: an async function, so [Ok b] is a
    promise resolved with [b] and [Throw e] a promise rejected with [e].
    [answer] is what [Notification.requestPermission()] resolves to; the
    browser records it as the new permission. *)
Definition requestNotificationPermission (answer : Permission) (p : Provider)
  : result (Provider * bool) :=
  if match window_Notification p with
     | Some perm => bool_decide (perm = default_)
     | None => false
     end
  then
    Ok (mkProvider (hook p) (state p) (Some answer) (shown p),
        bool_decide (answer = granted))
  else
    match window_Notification p with
    | Some perm => Ok (p, bool_decide (perm = granted))
    | None => Throw ReferenceError
    end.

(** *** Shapes of inbound envelopes *)

(** [message] is an object whose [type] is the string [kind] and whose
    [data] property reads as [data]. *)
Definition envelope_of (kind : string) (message data : value) : Prop :=
  ∃ m, message = VObj m ∧ m !! "type" = Some (VStr kind)
       ∧ default VUndefined (m !! "data") = data.

(** An [alert] envelope that the handler processes to the end: its record
    [rec] can be built and, where notifications are granted, title and body
    convert to strings. *)
Definition alert_processed (win : option Permission) (input : num * value)
    (rec : value) : Prop :=
  ∃ data, envelope_of "alert" input.2 data
          ∧ alert_payload input.1 data = Ok rec
          ∧ (win = Some granted → ∃ tb, notification_of data = Ok tb).

(** A [pair_update] envelope whose payload names the pair [k]. *)
Definition pair_update_for (k : string) (input : num * value) (payload : value)
  : Prop :=
  envelope_of "pair_update" input.2 payload
  ∧ (pid ← Get payload "pair_id"; ToString pid) = Ok k.

(** The five [case] labels of [handleWebSocketMessage]. *)
Definition known_kinds : list string :=
  ["pair_update"; "alert"; "price_update"; "system_status"; "pong"].

(** Per field, the value set by the last payload that has the field, or
    [old] when none has it. *)
Definition last_wins (field : string) (old : option value) (payloads : list value)
  : option value :=
  foldl (fun acc payload =>
           match spread payload !! field with
           | Some v => Some v
           | None => acc
           end) old payloads.

(** A [price_update] envelope whose payload names the symbol [k]. *)
Definition price_update_for (k : string) (input : num * value) (payload : value)
  : Prop :=
  envelope_of "price_update" input.2 payload
  ∧ (sym ← Get payload "symbol"; ToString sym) = Ok k.

(** [undefined] or [null]: the values a property read throws on. *)
Definition nullish (v : value) : bool :=
  match v with
  | VUndefined | VNull => true
  | _ => false
  end.

(** *** Drivers of the hook *)

(** [sendMessage] called on each message in turn, with the booleans it
    returned in call order. *)
Fixpoint send_all (messages : list value) (h : Hook) : Hook * list bool :=
  match messages with
  | [] => (h, [])
  | message :: rest =>
      let '(h, b) := sendMessage message h in
      let '(h, bs) := send_all rest h in
      (h, b :: bs)
  end.

(** The interval [ws.onopen] creates for its socket. *)
Definition ping_timer (ws : nat) : Timer := mkTimer 30000%Z (PingCallback ws) true true.

(** What a command of the [actions] object may do to a provider: nothing
    to the reducer state, the window or the notifications, and to the hook
    only the one frame handed to the open socket it holds; without such a
    socket, nothing at all. *)
Definition sends_only (message : value) (p p' : Provider) : Prop :=
  state p' = state p
  ∧ window_Notification p' = window_Notification p
  ∧ shown p' = shown p
  ∧ ((∃ ws w, socket (hook p) = Some ws ∧ sockets (hook p) !! ws = Some w
              ∧ readyState w = OPEN
              ∧ hook p'
                = setSockets
                    (<[ws := mkWebSocket OPEN (sent w ++ [JSON_stringify message])]>
                       (sockets (hook p)))
                    (hook p))
     ∨ (¬ connected (hook p) ∧ p' = p)).

End Model.

Arguments value : clear implicits.
Arguments Builtins : clear implicits.
Arguments State : clear implicits.
Arguments Hook : clear implicits.
Arguments Provider : clear implicits.
Arguments Action : clear implicits.

(** ** A sample host

    Numbers are integers, a date is its time value in milliseconds
    (negative for an invalid date), and the built-ins are simple stand-ins;
    the examples below run the model on it. *)
Module Sample.

Definition parse_date (v : value Z Z) : result Z :=
  match v with
  | VNum n => Ok n
  | VStr s =>
      if String.eqb s "2024-09-26T10:30:15Z" then Ok 1727346615000%Z
      else Ok (-1)%Z
  | VNull => Ok 0%Z
  | _ => Ok (-1)%Z
  end.

Definition stringify (v : value Z Z) : string :=
  match v with
  | VObj m =>
      match m !! "type" with
      | Some (VStr t) => ("type=" ++ t)%string
      | _ => "object"
      end
  | _ => "value"
  end.

#[global] Instance host : Builtins Z Z :=
  {| Number_zero := 0%Z;
     Number_toString := pretty;
     Number_toBoolean := fun n => negb (n =? 0)%Z;
     Object_toString := fun _ => Ok "[object Object]";
     Exotic_ownProps := fun _ => ∅;
     Date_new := parse_date;
     JSON_stringify := stringify;
     JSON_parse := fun _ => Throw SyntaxError;
     WebSocket_url_ok := true |}.

Definition envelope (type : string) (data : value Z Z) : value Z Z :=
  VObj {[ "type" := VStr type; "data" := data ]}.

(** Two alerts of the feed, and the records the handler builds from them
    when [Date.now()] is [clock] during both calls. *)
Definition clock : Z := 1727346615123.

Definition alert_data (message : string) : gmap string (value Z Z) :=
  {[ "type" := VStr "entry_signal"; "message" := VStr message;
     "z_score" := VNum 2%Z; "timestamp" := VStr "2024-09-26T10:30:15Z" ]}.

Definition alert_a : value Z Z := envelope "alert" (VObj (alert_data "7203/7267 diverged")).
Definition alert_b : value Z Z := envelope "alert" (VObj (alert_data "6758/6861 diverged")).

Definition record_of (message : string) : value Z Z :=
  VObj (<["timestamp" := VDate 1727346615000%Z]>
          (<["id" := VNum clock]> (alert_data message))).

Definition record_a : value Z Z := record_of "7203/7267 diverged".
Definition record_b : value Z Z := record_of "6758/6861 diverged".

Definition two_alerts : list (Z * value Z Z) := [(clock, alert_a); (clock, alert_b)].

(** Two updates of the pair P1. *)
Definition update_1 : value Z Z :=
  VObj {[ "pair_id" := VStr "P1"; "z_score" := VNum 1%Z; "status" := VStr "open" ]}.
Definition update_2 : value Z Z :=
  VObj {[ "pair_id" := VStr "P1"; "z_score" := VNum 3%Z ]}.

Definition two_updates : list (Z * value Z Z) :=
  [(clock, envelope "pair_update" update_1); (clock, envelope "pair_update" update_2)].

(** Payloads without their key, and envelopes of an unknown kind. *)
Definition keyless : gmap string (value Z Z) := {[ "price" := VNum 2850%Z ]}.

Definition keyless_envelope (type : string) : gmap string (value Z Z) :=
  {[ "type" := VStr type; "data" := VObj keyless ]}.

Definition heartbeat : value Z Z := VObj {[ "type" := VStr "heartbeat" ]}.
Definition pong : value Z Z := VObj {[ "type" := VStr "pong" ]}.

(** [n] alerts, the [k]-th handled at clock reading [k]. *)
Definition numbered_alerts (n : nat) : list (Z * value Z Z) :=
  (fun k => (Z.of_nat k, alert_a)) <$> seq 0 n.

(** The two price updates of the feed for the symbol 7203. *)
Definition price (p : Z) : value Z Z :=
  VObj {[ "symbol" := VStr "7203"; "price" := VNum p ]}.

Definition two_prices : list (Z * value Z Z) :=
  [(clock, envelope "price_update" (price 2850)); (clock, envelope "price_update" (price 2875))].

(** A provider in a window without notifications, and the hook right after
    its first [connect]. *)
Definition provider : Provider Z Z := RealtimeProvider_init None.
Definition mounted : Hook Z Z := connect useWebSocket_init.

(** More of the feed: an update of a second pair, a status report without
    data, and an alert that carries an id of its own. *)
Definition update_3 : value Z Z :=
  VObj {[ "pair_id" := VStr "P2"; "z_score" := VNum (-2)%Z ]}.

Definition status_without_data : value Z Z := VObj {[ "type" := VStr "system_status" ]}.

Definition update_without_data : gmap string (value Z Z) :=
  {[ "type" := VStr "pair_update"; "data" := VNull ]}.

Definition alert_with_id : gmap string (value Z Z) :=
  <["id" := VNum 7%Z]> (alert_data "7203/7267 diverged").

(** Providers in a window that grants notifications, and in one that has
    not been asked yet; the hook once its first socket is open, and with
    its socket connecting while the counter is at 3. *)
Definition provider_granted : Provider Z Z := RealtimeProvider_init (Some granted).
Definition provider_unasked : Provider Z Z := RealtimeProvider_init (Some default_).
Definition opened : Hook Z Z := ev_open 0 mounted.
Definition third_attempt : Hook Z Z := setReconnectAttemptsRef 3 mounted.

(** Payloads whose data is null, the mounted hook after its second render,
    six abnormal closures each followed by two renders, and a hook in which
    two sockets have closed abnormally. *)
Definition price_update_with_null_data : value Z Z := envelope "price_update" VNull.
Definition twice_rendered : Mounted := render mount.
Definition six_rounds : list (Z * nat) := replicate 6 (1006%Z, 0).
Definition two_closed : Hook Z Z := ev_close 1 1006 (ev_close 0 1006 (connect mounted)).

End Sample.

(** * Properties *)

Section Properties.

Context {num date : Type} `{!Builtins num date}.
Implicit Types (p : Provider num date) (h : Hook num date).
Implicit Types (message data payload : value num date).

Lemma bind_Ok {A B} (a : A) (k : A -> result B) : (Ok a ≫= k) = k a.
Proof. reflexivity. Qed.

Lemma envelope_truthy kind message data :
  envelope_of kind message data → ToBoolean message = true.
Proof. intros (m & -> & _). reflexivity. Qed.

Lemma envelope_type kind message data :
  envelope_of kind message data → Get message "type" = Ok (VStr kind).
Proof. intros (m & -> & Hty & _). simpl. by rewrite Hty. Qed.

Lemma envelope_data kind message data :
  envelope_of kind message data → Get message "data" = Ok data.
Proof. intros (m & -> & _ & <-). reflexivity. Qed.

(** ** Alert retention *)

Lemma take_cons_take {A} (n : nat) (l1 l2 : list A) (x : A) :
  take (S n) (l1 ++ x :: take n l2) = take (S n) (l1 ++ x :: l2).
Proof.
  rewrite !take_app. f_equal.
  destruct (S n - length l1) as [|k] eqn:Hk; [done|].
  simpl. f_equal. rewrite take_take. f_equal. lia.
Qed.

Lemma on_alert win now message rec p :
  window_Notification p = win →
  alert_processed win (now, message) rec →
  ∃ p', on_lastMessage now message p = Ok p'
        ∧ hook p' = hook p
        ∧ window_Notification p' = win
        ∧ pairs (state p') = pairs (state p)
        ∧ prices (state p') = prices (state p)
        ∧ systemStatus (state p') = systemStatus (state p)
        ∧ alerts (state p') = rec :: take 49 (alerts (state p)).
Proof.
  intros Hwin (data & Henv & Hrec & Hnote). simpl in *.
  unfold on_lastMessage. rewrite (envelope_truthy _ _ _ Henv).
  unfold handleWebSocketMessage.
  rewrite (envelope_type _ _ _ Henv), bind_Ok. simpl.
  rewrite (envelope_data _ _ _ Henv), bind_Ok, Hrec, bind_Ok.
  unfold dispatch. simpl. unfold show_notification. simpl. rewrite Hwin.
  destruct win as [[| |]|]; try (eexists; split; [reflexivity|by simpl]).
  destruct Hnote as [tb ->]; [done|].
  eexists; split; [reflexivity|by simpl].
Qed.

(** C1. Processing any sequence of alert envelopes leaves the alert list
    equal to the 50 first entries of the newest-first list of the records
    built (followed by the alerts held before): the record of the last
    envelope is at index 0, the length never exceeds 50, and what is dropped
    is the oldest end of the list. *)
Theorem alerts_newest_first_bounded
    (stream : list (num * value num date)) (recs : list (value num date)) p :
  Forall2 (alert_processed (window_Notification p)) stream recs →
  (length (alerts (state p)) ≤ 50)%nat →
  ∃ p', process stream p = Ok p'
        ∧ alerts (state p') = take 50 (reverse recs ++ alerts (state p))
        ∧ (length (alerts (state p')) ≤ 50)%nat
        ∧ (∀ r, last recs = Some r → alerts (state p') !! 0%nat = Some r).
Proof.
  intros Hall Hlen.
  assert (∃ p', process stream p = Ok p'
        ∧ alerts (state p') = take 50 (reverse recs ++ alerts (state p)))
    as (p' & Hrun & Halerts).
  { revert p recs Hall Hlen.
    induction stream as [|[now message] stream IH]; intros p recs Hall Hlen;
      inversion Hall as [|? rec ? recs' Hhd Htl]; subst.
    - exists p. split; [done|]. simpl. by rewrite take_ge.
    - destruct (on_alert _ now message rec p eq_refl Hhd)
        as (p1 & Hstep & _ & Hwin & _ & _ & _ & Hal).
      rewrite <- Hwin in Htl.
      destruct (IH p1 recs' Htl) as (p' & Hrun & Halerts).
      { rewrite Hal. simpl. rewrite length_take. lia. }
      exists p'. split.
      + simpl. by rewrite Hstep, bind_Ok.
      + rewrite Halerts, Hal, reverse_cons, <- (assoc_L (++)). simpl.
        apply (take_cons_take 49). }
  exists p'. repeat split; [done|done| |].
  - rewrite Halerts, length_take. lia.
  - intros r Hr. rewrite Halerts.
    apply last_Some in Hr as [recs' ->].
    by rewrite reverse_app.
Qed.

(** ** Pair snapshots *)

Lemma on_pair_update k now message payload p :
  pair_update_for k (now, message) payload →
  ∃ p', on_lastMessage now message p = Ok p'
        ∧ hook p' = hook p
        ∧ pairs (state p')
          = <[k := merge_props (pair_entry (state p) k) (spread payload)]>
              (pairs (state p))
        ∧ alerts (state p') = alerts (state p)
        ∧ prices (state p') = prices (state p)
        ∧ systemStatus (state p') = systemStatus (state p).
Proof.
  intros [Henv Hkey]. simpl in *.
  unfold on_lastMessage. rewrite (envelope_truthy _ _ _ Henv).
  unfold handleWebSocketMessage.
  rewrite (envelope_type _ _ _ Henv), bind_Ok. simpl.
  rewrite (envelope_data _ _ _ Henv), bind_Ok.
  unfold dispatch, realtimeReducer.
  destruct (Get payload "pair_id") as [pid|]; [|done].
  rewrite bind_Ok. change (ToString pid = Ok k) in Hkey. rewrite Hkey, bind_Ok.
  eexists; split; [reflexivity|by simpl].
Qed.

Lemma merge_props_lookup (a b : gmap string (value num date)) field :
  merge_props a b !! field
  = match b !! field with Some v => Some v | None => a !! field end.
Proof.
  unfold merge_props. rewrite lookup_union.
  by destruct (b !! field), (a !! field).
Qed.

Lemma foldl_merge_lookup (payloads : list (value num date)) old field :
  foldl merge_props old (spread <$> payloads) !! field
  = last_wins field (old !! field) payloads.
Proof.
  unfold last_wins. revert old.
  induction payloads as [|payload payloads IH]; intros old; [done|].
  simpl. by rewrite IH, merge_props_lookup.
Qed.

(** C2. A sequence of pair_update envelopes for one pair identifier leaves,
    under that identifier, the left-to-right shallow merge of the payloads
    onto the entry held before (onto the empty object when there was none,
    which creates the entry); per field the last payload that sets it wins. *)
Theorem pair_updates_merge_in_order
    (k : string) (stream : list (num * value num date))
    (payloads : list (value num date)) p :
  Forall2 (pair_update_for k) stream payloads →
  ∃ p', process stream p = Ok p'
        ∧ (stream ≠ [] →
           pairs (state p') !! k
           = Some (foldl merge_props (pair_entry (state p) k) (spread <$> payloads)))
        ∧ (stream ≠ [] → pairs (state p) !! k = None →
           pairs (state p') !! k = Some (foldl merge_props ∅ (spread <$> payloads)))
        ∧ (∀ field,
             foldl merge_props (pair_entry (state p) k) (spread <$> payloads) !! field
             = last_wins field (pair_entry (state p) k !! field) payloads).
Proof.
  intros Hall.
  assert (∃ p', process stream p = Ok p'
        ∧ pair_entry (state p') k
          = foldl merge_props (pair_entry (state p) k) (spread <$> payloads)
        ∧ (stream ≠ [] → is_Some (pairs (state p') !! k)))
    as (p' & Hrun & Hentry & Hsome).
  { revert p payloads Hall.
    induction stream as [|[now message] stream IH]; intros p payloads Hall;
      inversion Hall as [|? payload ? payloads' Hhd Htl]; subst.
    - by exists p.
    - destruct (on_pair_update _ _ _ _ p Hhd) as (p1 & Hstep & _ & Hpairs & _).
      destruct (IH p1 payloads' Htl) as (p' & Hrun & Hentry & Hsome).
      exists p'. split; [|split].
      + simpl. by rewrite Hstep, bind_Ok.
      + rewrite Hentry. simpl. f_equal.
        unfold pair_entry at 1. by rewrite Hpairs, lookup_insert_eq.
      + intros _. destruct stream as [|i stream'].
        * inversion Htl; subst. simpl in Hrun. injection Hrun as <-.
          rewrite Hpairs, lookup_insert_eq. by eexists.
        * by apply Hsome. }
  assert (stream ≠ [] →
          pairs (state p') !! k
          = Some (foldl merge_props (pair_entry (state p) k) (spread <$> payloads)))
    as Hfinal.
  { intros Hne. destruct (Hsome Hne) as [e He].
    unfold pair_entry at 1 in Hentry. rewrite He in Hentry. simpl in Hentry.
    by rewrite He, Hentry. }
  exists p'. split; [done|]. split; [done|]. split.
  - intros Hne Hnone. rewrite (Hfinal Hne). unfold pair_entry. by rewrite Hnone.
  - intros field. apply foldl_merge_lookup.
Qed.

(** ** Kinds without effect *)

Lemma is_case_true (v : value num date) label :
  is_case v label = true → v = VStr label.
Proof.
  destruct v; simpl; try done. intros Heq. f_equal. by apply String.eqb_eq.
Qed.

Lemma handle_other_kind now message p ty :
  Get message "type" = Ok ty →
  (∀ kind, kind ∈ ["pair_update"; "alert"; "price_update"; "system_status"] →
           ty ≠ VStr kind) →
  handleWebSocketMessage now message p = Ok p.
Proof.
  intros Hty Hnot. unfold handleWebSocketMessage. rewrite Hty, bind_Ok.
  repeat lazymatch goal with
  | |- context [is_case ty ?l] =>
      destruct (is_case ty l) eqn:Hcase;
        [ apply is_case_true in Hcase;
          first [ done
                | exfalso; apply (Hnot l); [repeat constructor | done] ]
        | clear Hcase ]
  end; done.
Qed.

Lemma on_lastMessage_type now message p :
  on_lastMessage now message p = Ok p
  ∨ ∃ ty, Get message "type" = Ok ty
          ∧ on_lastMessage now message p = handleWebSocketMessage now message p.
Proof.
  unfold on_lastMessage.
  destruct (ToBoolean message) eqn:Htruthy; [|by left].
  right. destruct message; simpl in *; try done; by eexists.
Qed.

(** C8. An envelope whose type tag is none of the five known kinds is
    processed without an exception and leaves the whole provider (state,
    hook, notifications) as it was, and the envelopes after it are processed
    as if it had not arrived; the same holds for a pong envelope. *)
Theorem unknown_kind_and_pong_change_nothing
    now message (rest : list (num * value num date)) p :
  ((∀ kind, kind ∈ known_kinds → Get message "type" ≠ Ok (VStr kind)) →
   on_lastMessage now message p = Ok p
   ∧ process ((now, message) :: rest) p = process rest p)
  ∧ (Get message "type" = Ok (VStr "pong") →
     on_lastMessage now message p = Ok p
     ∧ process ((now, message) :: rest) p = process rest p).
Proof.
  assert (on_lastMessage now message p = Ok p →
          on_lastMessage now message p = Ok p
          ∧ process ((now, message) :: rest) p = process rest p) as Hdone.
  { intros Hstep. split; [done|]. simpl. by rewrite Hstep. }
  split; intros Hkind; apply Hdone.
  - destruct (on_lastMessage_type now message p) as [?|(ty & Hty & ->)]; [done|].
    apply (handle_other_kind _ _ _ ty Hty).
    intros kind Hin ->. apply (Hkind kind); [|done].
    unfold known_kinds.
    repeat (apply elem_of_cons in Hin as [->|Hin]; [repeat constructor|]).
    by apply elem_of_nil in Hin.
  - destruct (on_lastMessage_type now message p) as [?|(ty & Hty & ->)]; [done|].
    apply (handle_other_kind _ _ _ ty Hty).
    intros kind Hin ->. rewrite Hkind in Hty. injection Hty as <-.
    repeat (apply elem_of_cons in Hin as [Hin|Hin]; [discriminate|]).
    by apply elem_of_nil in Hin.
Qed.

(** C9. clearAlerts empties the alert list and changes nothing else: the
    hook, and with it every frame sent on every socket, the pairs, the
    prices, the system status and the notifications are as before. *)
Theorem clearAlerts_is_local p :
  ∃ p', clearAlerts p = Ok p'
        ∧ alerts (state p') = []
        ∧ hook p' = hook p
        ∧ sent <$> sockets (hook p') = sent <$> sockets (hook p)
        ∧ pairs (state p') = pairs (state p)
        ∧ prices (state p') = prices (state p)
        ∧ systemStatus (state p') = systemStatus (state p)
        ∧ window_Notification p' = window_Notification p
        ∧ shown p' = shown p.
Proof. eexists. split; [reflexivity|]. by simpl. Qed.

(** ** Payloads without their key *)

(** C10, as the handler has it. A pair_update whose data is neither null
    nor undefined and has no pair_id, and a price_update whose data is
    neither null nor undefined and has no symbol (the read yields
    undefined), are processed without an exception: the own properties of
    the payload are merged into, respectively the payload is stored as, the
    entry under the key "undefined", and every other part of the provider
    is unchanged.  Handling is not total: when data is missing, undefined
    or null, processing throws a TypeError. *)
Theorem keyless_payload_goes_under_undefined
    now (m : gmap string (value num date)) data p :
  default VUndefined (m !! "data") = data →
  (m !! "type" = Some (VStr "pair_update") → Get data "pair_id" = Ok VUndefined →
   ∃ p', on_lastMessage now (VObj m) p = Ok p'
         ∧ pairs (state p')
           = <["undefined" := merge_props (pair_entry (state p) "undefined")
                                 (spread data)]>
               (pairs (state p))
         ∧ alerts (state p') = alerts (state p)
         ∧ prices (state p') = prices (state p)
         ∧ systemStatus (state p') = systemStatus (state p)
         ∧ hook p' = hook p ∧ shown p' = shown p)
  ∧ (m !! "type" = Some (VStr "price_update") → Get data "symbol" = Ok VUndefined →
     ∃ p', on_lastMessage now (VObj m) p = Ok p'
           ∧ prices (state p') = <["undefined" := data]> (prices (state p))
           ∧ pairs (state p') = pairs (state p)
           ∧ alerts (state p') = alerts (state p)
           ∧ systemStatus (state p') = systemStatus (state p)
           ∧ hook p' = hook p ∧ shown p' = shown p)
  ∧ (m !! "type" = Some (VStr "pair_update")
     ∨ m !! "type" = Some (VStr "price_update") →
     data = VUndefined ∨ data = VNull →
     on_lastMessage now (VObj m) p = Throw TypeError).
Proof.
  intros Hdata. split; [|split].
  - intros Hty Hkey.
    unfold on_lastMessage, handleWebSocketMessage. simpl.
    rewrite Hty. simpl. rewrite Hdata.
    unfold dispatch, realtimeReducer. rewrite Hkey. simpl.
    eexists; split; [reflexivity|by simpl].
  - intros Hty Hkey.
    unfold on_lastMessage, handleWebSocketMessage. simpl.
    rewrite Hty. simpl. rewrite Hdata.
    unfold dispatch, realtimeReducer. rewrite Hkey. simpl.
    eexists; split; [reflexivity|by simpl].
  - intros [Hty|Hty] [->| ->];
      unfold on_lastMessage, handleWebSocketMessage; simpl;
      rewrite Hty; simpl; by rewrite Hdata.
Qed.

(** ** The connection hook *)

(** C7. sendMessage hands the serialised message to the socket exactly when
    the hook holds an open socket, and then returns true; otherwise it
    returns false and leaves the hook, and so every socket, untouched.  It
    is a total function: no call throws. *)
Theorem sendMessage_reports_dispatch message h :
  (∃ ws w, socket h = Some ws ∧ sockets h !! ws = Some w ∧ readyState w = OPEN
           ∧ sendMessage message h = (ws_send ws (JSON_stringify message) h, true)
           ∧ sockets (ws_send ws (JSON_stringify message) h) !! ws
             = Some (mkWebSocket OPEN (sent w ++ [JSON_stringify message])))
  ∨ (¬ connected h ∧ sendMessage message h = (h, false)).
Proof.
  unfold sendMessage, connected, is_open.
  destruct (socket h) as [ws|] eqn:Hsock;
    [|right; split; [by intros (? & ? & ? & _)|done]].
  destruct (sockets h !! ws) as [w|] eqn:Hw;
    [|right; split; [intros (? & ? & [= <-] & ? & _); congruence|done]].
  case_bool_decide as Hopen;
    [left|right; split; [intros (? & ? & [= <-] & ? & ?); congruence|done]].
  exists ws, w. repeat split; try done.
  unfold ws_send. simpl. rewrite list_lookup_alter_eq, Hw. simpl.
  by rewrite Hopen.
Qed.

(** C4, as the hook has it. connect never throws and does not look at the
    connection it already holds: when the WebSocket constructor succeeds a
    new connecting transport is added and becomes the hook's socket, so the
    number of live transports grows by one with each call; when it throws
    only the connection error is recorded. *)
Theorem connect_always_opens h :
  if WebSocket_url_ok
  then sockets (connect h) = sockets h ++ [mkWebSocket CONNECTING []]
       ∧ socket (connect h) = Some (List.length (sockets h))
       ∧ live_count (connect h) = S (live_count h)
  else sockets (connect h) = sockets h
       ∧ socket (connect h) = socket h
       ∧ connectionError (connect h)
         = Some "Failed to create WebSocket connection".
Proof.
  unfold connect, live_count. destruct WebSocket_url_ok; simpl; [|done].
  repeat split. rewrite List.filter_app, length_app. simpl. lia.
Qed.

(** C5, at a window without the Notification constructor: the promise of
    requestNotificationPermission is rejected with a ReferenceError instead
    of being resolved with false. *)
Theorem requestNotificationPermission_rejects_without_Notification
    (answer : Permission) h (st : State num date) (sh : list (string * string)) :
  requestNotificationPermission answer (mkProvider h st None sh)
  = Throw ReferenceError.
Proof. reflexivity. Qed.

(** ** Sockets and timeouts *)

Lemma live_not_closed (w : WebSocket) : live w = true → readyState w ≠ CLOSED.
Proof. unfold live. by destruct (readyState w). Qed.

Lemma timeout_elapses_idle h :
  reconnect_pending h = false → timeout_elapses h = h.
Proof.
  unfold reconnect_pending, timeout_elapses, ev_timer.
  destruct (reconnectTimeoutRef h) as [id|]; [|done].
  destruct (timers h !! id) as [t|]; [|done]. by intros ->.
Qed.

(** ** Alert records *)

(** The record of an alert carries the clock reading as its [id] and the
    [Date] built from the payload's [timestamp]. *)
Lemma alert_payload_fields now data rec :
  alert_payload now data = Ok rec →
  Get rec "id" = Ok (VNum now)
  ∧ ∃ ts d, Get data "timestamp" = Ok ts ∧ Date_new ts = Ok d
            ∧ Get rec "timestamp" = Ok (VDate d).
Proof.
  unfold alert_payload.
  destruct (Get data "timestamp") as [ts|] eqn:Hts; [|done].
  rewrite bind_Ok. destruct (Date_new ts) as [d|] eqn:Hd; [|done].
  rewrite bind_Ok. intros [= <-]. split.
  - simpl. by rewrite lookup_insert_ne, lookup_insert_eq.
  - exists ts, d. repeat split; try done. simpl. by rewrite lookup_insert_eq.
Qed.

(** * Further properties of the provider *)

(** ** What one envelope does, exactly *)

Lemma on_pair_update_exact k now message payload p :
  pair_update_for k (now, message) payload →
  on_lastMessage now message p
  = Ok (mkProvider (hook p)
          (mkState
             (<[k := merge_props (pair_entry (state p) k) (spread payload)]>
                (pairs (state p)))
             (alerts (state p)) (prices (state p)) (systemStatus (state p)))
          (window_Notification p) (shown p)).
Proof.
  intros [Henv Hkey]. simpl in *.
  unfold on_lastMessage. rewrite (envelope_truthy _ _ _ Henv).
  unfold handleWebSocketMessage.
  rewrite (envelope_type _ _ _ Henv), bind_Ok. simpl.
  rewrite (envelope_data _ _ _ Henv), bind_Ok.
  unfold dispatch, realtimeReducer.
  destruct (Get payload "pair_id") as [pid|]; [|done].
  rewrite bind_Ok. change (ToString pid = Ok k) in Hkey.
  by rewrite Hkey, bind_Ok.
Qed.

Lemma on_price_update_exact k now message payload p :
  price_update_for k (now, message) payload →
  on_lastMessage now message p
  = Ok (mkProvider (hook p)
          (mkState (pairs (state p)) (alerts (state p))
             (<[k := payload]> (prices (state p))) (systemStatus (state p)))
          (window_Notification p) (shown p)).
Proof.
  intros [Henv Hkey]. simpl in *.
  unfold on_lastMessage. rewrite (envelope_truthy _ _ _ Henv).
  unfold handleWebSocketMessage.
  rewrite (envelope_type _ _ _ Henv), bind_Ok. simpl.
  rewrite (envelope_data _ _ _ Henv), bind_Ok.
  unfold dispatch, realtimeReducer.
  destruct (Get payload "symbol") as [sym|]; [|done].
  rewrite bind_Ok. change (ToString sym = Ok k) in Hkey.
  by rewrite Hkey, bind_Ok.
Qed.

Lemma on_system_status_exact now message data p :
  envelope_of "system_status" message data →
  on_lastMessage now message p
  = Ok (mkProvider (hook p)
          (mkState (pairs (state p)) (alerts (state p)) (prices (state p))
             (merge_props (systemStatus (state p)) (spread data)))
          (window_Notification p) (shown p)).
Proof.
  intros Henv.
  unfold on_lastMessage. rewrite (envelope_truthy _ _ _ Henv).
  unfold handleWebSocketMessage.
  rewrite (envelope_type _ _ _ Henv), bind_Ok. simpl.
  by rewrite (envelope_data _ _ _ Henv), bind_Ok.
Qed.

(** ** Prices *)

(** X1. A sequence of price_update envelopes for one symbol leaves under
    that symbol the payload of the last envelope, whole (earlier payloads
    are replaced, not merged), leaves every other symbol as it was, and
    changes nothing but the prices. *)
Theorem price_updates_keep_the_last_payload
    (k : string) (stream : list (num * value num date))
    (payloads : list (value num date)) p :
  Forall2 (price_update_for k) stream payloads →
  ∃ p', process stream p = Ok p'
        ∧ prices (state p') !! k
          = match last payloads with
            | Some payload => Some payload
            | None => prices (state p) !! k
            end
        ∧ (∀ k', k' ≠ k → prices (state p') !! k' = prices (state p) !! k')
        ∧ pairs (state p') = pairs (state p)
        ∧ alerts (state p') = alerts (state p)
        ∧ systemStatus (state p') = systemStatus (state p)
        ∧ hook p' = hook p.
Proof.
  revert p payloads.
  induction stream as [|[now message] stream IH]; intros p payloads Hall;
    inversion Hall as [|? payload ? payloads' Hhd Htl]; subst.
  { by exists p. }
  destruct (IH (mkProvider (hook p)
                  (mkState (pairs (state p)) (alerts (state p))
                     (<[k := payload]> (prices (state p)))
                     (systemStatus (state p)))
                  (window_Notification p) (shown p)) payloads' Htl)
    as (p' & Hrun & Hk & Hother & Hrest).
  exists p'. split.
  { simpl. by rewrite (on_price_update_exact k _ _ payload p Hhd), bind_Ok. }
  simpl in *. split; [|split; [|done]].
  - rewrite Hk, last_cons.
    destruct (last payloads'); [done|]. by rewrite lookup_insert_eq.
  - intros k' Hne. rewrite (Hother k' Hne). by rewrite lookup_insert_ne.
Qed.

(** ** System status *)

(** X2. A system_status envelope never throws, whatever its data (also
    when data is missing, null or not an object): the own properties of
    data are merged over the current status, a field the payload does not
    set keeps its value, and nothing else changes. *)
Theorem system_status_merges_any_data now message data p :
  envelope_of "system_status" message data →
  ∃ p', on_lastMessage now message p = Ok p'
        ∧ (∀ field, systemStatus (state p') !! field
                    = match spread data !! field with
                      | Some v => Some v
                      | None => systemStatus (state p) !! field
                      end)
        ∧ (nullish data = true → systemStatus (state p') = systemStatus (state p))
        ∧ pairs (state p') = pairs (state p)
        ∧ alerts (state p') = alerts (state p)
        ∧ prices (state p') = prices (state p)
        ∧ hook p' = hook p.
Proof.
  intros Henv. eexists. split; [by apply on_system_status_exact|]. simpl.
  split; [|split; [|done]].
  - intros field. apply merge_props_lookup.
  - intros Hnull. destruct data; try done; simpl; unfold merge_props;
      by rewrite (left_id_L ∅ (∪)).
Qed.

(** ** Frame of one envelope *)

Ltac bind_inv H :=
  repeat lazymatch type of H with
  | (?r ≫= _) = Ok _ =>
      let E := fresh "E" in
      destruct r eqn:E; [rewrite bind_Ok in H; cbv beta in H | discriminate H]
  end.

(** What a handled message can change: never the hook nor the window, and
    each part of the state only when the message is of the kind that owns
    it. *)
Lemma on_lastMessage_frame now message p p' :
  on_lastMessage now message p = Ok p' →
  hook p' = hook p
  ∧ window_Notification p' = window_Notification p
  ∧ (Get message "type" ≠ Ok (VStr "pair_update") →
     pairs (state p') = pairs (state p))
  ∧ (Get message "type" ≠ Ok (VStr "alert") →
     alerts (state p') = alerts (state p) ∧ shown p' = shown p)
  ∧ (Get message "type" ≠ Ok (VStr "price_update") →
     prices (state p') = prices (state p))
  ∧ (Get message "type" ≠ Ok (VStr "system_status") →
     systemStatus (state p') = systemStatus (state p))
  ∧ length (alerts (state p')) ≤ 50 `max` length (alerts (state p))
  ∧ shown p `prefix_of` shown p'.
Proof.
  unfold on_lastMessage. intros H.
  destruct (ToBoolean message); [|injection H as <-; repeat split; (done || lia)].
  unfold handleWebSocketMessage in H. bind_inv H.
  repeat lazymatch type of H with
  | (if is_case ?t ?l then _ else _) = _ =>
      let Hcase := fresh "Hcase" in
      destruct (is_case t l) eqn:Hcase;
        [ apply is_case_true in Hcase; subst t | clear Hcase ]
  end.
  - bind_inv H. unfold dispatch in H. bind_inv H. injection H as <-.
    unfold realtimeReducer in E1. bind_inv E1. injection E1 as <-. simpl.
    repeat split; (done || lia).
  - bind_inv H. unfold dispatch in E2. simpl in E2. injection E2 as <-.
    unfold alert_payload in E1. bind_inv E1. injection E1 as <-.
    unfold show_notification in H. simpl in H.
    destruct (window_Notification p) as [[| |]|] eqn:Hwin;
      [| bind_inv H |..]; injection H as <-; simpl;
      repeat split; try done; try (rewrite length_take; lia);
      try congruence; by apply prefix_app_r.
  - bind_inv H. unfold dispatch in H. bind_inv H. injection H as <-.
    unfold realtimeReducer in E1. bind_inv E1. injection E1 as <-. simpl.
    repeat split; (done || lia).
  - bind_inv H. unfold dispatch in H. simpl in H. injection H as <-. simpl.
    repeat split; (done || lia).
  - injection H as <-. repeat split; (done || lia).
  - injection H as <-. repeat split; (done || lia).
Qed.

(** X3. Handling inbound messages never acts on the connection: whatever
    the stream, when it has been processed the hook (the sockets, every
    frame sent, the timers) and the window's permission are as before, the
    notifications shown before are still there in order, and a list of at
    most 50 alerts has stayed within 50. *)
Theorem inbound_stream_leaves_the_hook_alone
    (stream : list (num * value num date)) p p' :
  process stream p = Ok p' →
  hook p' = hook p
  ∧ sent <$> sockets (hook p') = sent <$> sockets (hook p)
  ∧ window_Notification p' = window_Notification p
  ∧ shown p `prefix_of` shown p'
  ∧ (length (alerts (state p)) ≤ 50 → length (alerts (state p')) ≤ 50).
Proof.
  revert p. induction stream as [|[now message] stream IH]; intros p Hrun.
  { injection Hrun as <-. done. }
  simpl in Hrun. bind_inv Hrun. rename a into p1.
  destruct (on_lastMessage_frame _ _ _ _ E)
    as (Hh & Hw & _ & _ & _ & _ & Hlen & Hsh).
  destruct (IH p1 Hrun) as (Hh' & _ & Hw' & Hsh' & Hlen').
  repeat split.
  - congruence.
  - by rewrite Hh', Hh.
  - congruence.
  - by etrans.
  - intros Hle. apply Hlen'. lia.
Qed.

(** X4. Each part of the state belongs to one kind of envelope: a stream
    that carries no envelope of that kind leaves the part as it was (pairs
    change only by pair_update, alerts and notifications only by alert,
    prices only by price_update, the system status only by system_status). *)
Theorem state_parts_change_only_by_their_kind
    (stream : list (num * value num date)) p p' :
  process stream p = Ok p' →
  (Forall (λ input, Get input.2 "type" ≠ Ok (VStr "pair_update")) stream →
   pairs (state p') = pairs (state p))
  ∧ (Forall (λ input, Get input.2 "type" ≠ Ok (VStr "alert")) stream →
     alerts (state p') = alerts (state p) ∧ shown p' = shown p)
  ∧ (Forall (λ input, Get input.2 "type" ≠ Ok (VStr "price_update")) stream →
     prices (state p') = prices (state p))
  ∧ (Forall (λ input, Get input.2 "type" ≠ Ok (VStr "system_status")) stream →
     systemStatus (state p') = systemStatus (state p)).
Proof.
  revert p. induction stream as [|[now message] stream IH]; intros p Hrun.
  { injection Hrun as <-. done. }
  simpl in Hrun. bind_inv Hrun. rename a into p1.
  destruct (on_lastMessage_frame _ _ _ _ E)
    as (_ & _ & Hpairs & Halerts & Hprices & Hstatus & _).
  destruct (IH p1 Hrun) as (Hpairs' & Halerts' & Hprices' & Hstatus').
  split; [|split; [|split]]; intros Hall;
    inversion Hall as [|? ? Hhd Htl]; subst; simpl in Hhd.
  - rewrite (Hpairs' Htl). by apply Hpairs.
  - rewrite (proj1 (Halerts' Htl)), (proj2 (Halerts' Htl)). by apply Halerts.
  - rewrite (Hprices' Htl). by apply Hprices.
  - rewrite (Hstatus' Htl). by apply Hstatus.
Qed.

(** ** Envelopes that make the handler throw *)

(** X5. A pair_update, alert or price_update envelope whose data is
    missing, undefined or null makes the handler throw a TypeError (a
    property of undefined or null is read); the envelope is not skipped. *)
Theorem update_without_data_throws
    now (m : gmap string (value num date)) (kind : string) p :
  kind ∈ ["pair_update"; "alert"; "price_update"] →
  m !! "type" = Some (VStr kind) →
  nullish (default VUndefined (m !! "data")) = true →
  on_lastMessage now (VObj m) p = Throw TypeError.
Proof.
  intros Hkind Hty Hnull.
  unfold on_lastMessage, handleWebSocketMessage. simpl. rewrite Hty. simpl.
  repeat (apply elem_of_cons in Hkind as [->|Hkind]);
    [..|by apply elem_of_nil in Hkind]; simpl;
    destruct (default VUndefined (m !! "data")); done.
Qed.

(** ** Replays and reorderings *)

Lemma envelope_of_Get kind message :
  Get message "type" = Ok (VStr kind) →
  ∃ data, envelope_of kind message data.
Proof.
  destruct message as [| | | | | | |m]; simpl; try done.
  destruct (m !! "type") as [ty|] eqn:Hty; simpl; [|done].
  intros [= ->]. by exists (default VUndefined (m !! "data")), m.
Qed.

Lemma merge_props_twice (a b : gmap string (value num date)) :
  merge_props (merge_props a b) b = merge_props a b.
Proof.
  unfold merge_props. by rewrite (assoc_L (∪)), (idemp_L (∪)).
Qed.

(** X6. Delivering the same pair_update, price_update or system_status
    envelope a second time changes nothing: the provider after the replay
    is the provider after the first delivery. *)
Theorem replayed_update_changes_nothing now now' message (kind : string) p p1 :
  kind ∈ ["pair_update"; "price_update"; "system_status"] →
  Get message "type" = Ok (VStr kind) →
  on_lastMessage now message p = Ok p1 →
  on_lastMessage now' message p1 = Ok p1.
Proof.
  intros Hkind Hty Hstep.
  destruct (envelope_of_Get _ _ Hty) as [data Henv].
  repeat (apply elem_of_cons in Hkind as [->|Hkind]);
    [..|by apply elem_of_nil in Hkind].
  - assert (∃ k, pair_update_for k (now, message) data) as [k Hfor].
    { revert Hstep. unfold on_lastMessage.
      rewrite (envelope_truthy _ _ _ Henv). unfold handleWebSocketMessage.
      rewrite Hty, bind_Ok. simpl. rewrite (envelope_data _ _ _ Henv), bind_Ok.
      unfold dispatch, realtimeReducer.
      destruct (Get data "pair_id") as [pid|] eqn:Hpid; [|done].
      rewrite bind_Ok. destruct (ToString pid) as [k|] eqn:Hk; [|done].
      intros _. exists k. split; [done|]. simpl. by rewrite Hpid, bind_Ok. }
    rewrite (on_pair_update_exact k now message data p Hfor) in Hstep.
    injection Hstep as <-.
    rewrite (on_pair_update_exact k now' message data _ Hfor). simpl.
    unfold pair_entry at 1. simpl. rewrite lookup_insert_eq. simpl.
    by rewrite merge_props_twice, insert_insert_eq.
  - assert (∃ k, price_update_for k (now, message) data) as [k Hfor].
    { revert Hstep. unfold on_lastMessage.
      rewrite (envelope_truthy _ _ _ Henv). unfold handleWebSocketMessage.
      rewrite Hty, bind_Ok. simpl. rewrite (envelope_data _ _ _ Henv), bind_Ok.
      unfold dispatch, realtimeReducer.
      destruct (Get data "symbol") as [sym|] eqn:Hsym; [|done].
      rewrite bind_Ok. destruct (ToString sym) as [k|] eqn:Hk; [|done].
      intros _. exists k. split; [done|]. simpl. by rewrite Hsym, bind_Ok. }
    rewrite (on_price_update_exact k now message data p Hfor) in Hstep.
    injection Hstep as <-.
    rewrite (on_price_update_exact k now' message data _ Hfor). simpl.
    by rewrite insert_insert_eq.
  - rewrite (on_system_status_exact now message data p Henv) in Hstep.
    injection Hstep as <-.
    rewrite (on_system_status_exact now' message data _ Henv). simpl.
    by rewrite merge_props_twice.
Qed.

(** X7. Updates of two different pairs do not interfere: delivered in
    either order they are both processed and give the same provider. *)
Theorem updates_of_distinct_pairs_commute
    (k1 k2 : string) (in1 in2 : num * value num date) (d1 d2 : value num date) p :
  k1 ≠ k2 →
  pair_update_for k1 in1 d1 → pair_update_for k2 in2 d2 →
  (∃ p', process [in1; in2] p = Ok p'
         ∧ pairs (state p') !! k1 = Some (merge_props (pair_entry (state p) k1) (spread d1))
         ∧ pairs (state p') !! k2 = Some (merge_props (pair_entry (state p) k2) (spread d2)))
  ∧ process [in1; in2] p = process [in2; in1] p.
Proof.
  destruct in1 as [n1 m1], in2 as [n2 m2]. intros Hne H1 H2.
  simpl.
  rewrite (on_pair_update_exact k1 n1 m1 d1 p H1),
          (on_pair_update_exact k2 n2 m2 d2 p H2), !bind_Ok.
  rewrite (on_pair_update_exact k2 n2 m2 d2 _ H2),
          (on_pair_update_exact k1 n1 m1 d1 _ H1), !bind_Ok. simpl.
  unfold pair_entry. simpl.
  rewrite !lookup_insert_ne by done. split.
  - eexists. split; [reflexivity|]. simpl.
    by rewrite lookup_insert_ne, !lookup_insert_eq.
  - do 3 f_equal. by apply insert_insert_ne.
Qed.

(** ** Alert records and notifications *)

(** X8. The record built from an alert payload keeps every field of the
    payload except [id] and [timestamp]: these two are always replaced, by
    the clock reading and by the parsed date, also when the feed sent its
    own [id]. *)
Theorem alert_record_keeps_the_other_fields
    now (dm : gmap string (value num date)) rec :
  alert_payload now (VObj dm) = Ok rec →
  Get rec "id" = Ok (VNum now)
  ∧ (∃ d, Date_new (default VUndefined (dm !! "timestamp")) = Ok d
          ∧ Get rec "timestamp" = Ok (VDate d))
  ∧ (∀ field, field ≠ "id" → field ≠ "timestamp" →
              Get rec field = Get (VObj dm) field).
Proof.
  unfold alert_payload. simpl.
  destruct (Date_new (default VUndefined (dm !! "timestamp"))) as [d|] eqn:Hd;
    [|done].
  intros [= <-]. simpl. split; [|split].
  - by rewrite lookup_insert_ne, lookup_insert_eq.
  - exists d. by rewrite lookup_insert_eq.
  - intros field Hid Hts. by rewrite !lookup_insert_ne.
Qed.

(** X9. The browser notification of an alert is a side effect only: the
    state after the alert is the same whatever the permission; a
    notification with the alert's title and body is appended exactly when
    the permission is granted, and none is shown otherwise. *)
Theorem notification_follows_permission win now message rec p :
  window_Notification p = win →
  alert_processed win (now, message) rec →
  ∃ p', on_lastMessage now message p = Ok p'
        ∧ state p'
          = mkState (pairs (state p)) (rec :: take 49 (alerts (state p)))
              (prices (state p)) (systemStatus (state p))
        ∧ (win ≠ Some granted → shown p' = shown p)
        ∧ (win = Some granted →
           ∃ data tb, envelope_of "alert" message data
                      ∧ notification_of data = Ok tb
                      ∧ shown p' = shown p ++ [tb]).
Proof.
  intros Hwin (data & Henv & Hrec & Hnote). simpl in *.
  unfold on_lastMessage. rewrite (envelope_truthy _ _ _ Henv).
  unfold handleWebSocketMessage.
  rewrite (envelope_type _ _ _ Henv), bind_Ok. simpl.
  rewrite (envelope_data _ _ _ Henv), bind_Ok, Hrec, bind_Ok.
  unfold dispatch. simpl. unfold show_notification. simpl. rewrite Hwin.
  destruct win as [[| |]|];
    try (eexists; split; [reflexivity|]; simpl;
         split; [done|]; split; [done|]; by intros [=]).
  destruct (Hnote eq_refl) as [tb Htb]. rewrite Htb.
  eexists; split; [reflexivity|]. simpl.
  split; [done|]. split; [done|]. intros _. by exists data, tb.
Qed.

(** X10. Where the window has the Notification constructor,
    requestNotificationPermission resolves and never rejects; it resolves
    to true exactly when the permission is granted afterwards; a permission
    already granted or denied is reported without asking (the provider is
    unchanged), and only the default permission is replaced by the user's
    answer. *)
Theorem requestNotificationPermission_with_Notification
    (answer perm : Permission) p :
  window_Notification p = Some perm →
  ∃ p' b, requestNotificationPermission answer p = Ok (p', b)
          ∧ (b = true ↔ window_Notification p' = Some granted)
          ∧ (perm ≠ default_ → p' = p)
          ∧ (perm = default_ → window_Notification p' = Some answer)
          ∧ state p' = state p ∧ hook p' = hook p ∧ shown p' = shown p.
Proof.
  intros Hwin. unfold requestNotificationPermission. rewrite Hwin.
  destruct perm; simpl.
  - eexists _, _. split; [reflexivity|]. simpl. repeat split; try done.
    + intros Hb. by apply bool_decide_eq_true_1 in Hb as ->.
    + intros [= ->]. by apply bool_decide_eq_true_2.
  - eexists _, _. split; [reflexivity|]. by rewrite Hwin.
  - eexists _, _. split; [reflexivity|]. rewrite Hwin.
    repeat split; done.
Qed.

(** ** Commands *)

Lemma list_alter_lookup_insert {A} (f : A → A) (l : list A) i x :
  l !! i = Some x → alter f i l = <[i := f x]> l.
Proof.
  revert i. induction l as [|y l IH]; intros [|i] Hx; simplify_eq/=; [done|].
  f_equal. by apply IH.
Qed.

Lemma command_sends_only message p :
  sends_only message p (with_hook (sendMessage message (hook p)) p).
Proof.
  unfold sends_only, with_hook. simpl. do 3 (split; [done|]).
  unfold sendMessage, connected, is_open.
  destruct (socket (hook p)) as [ws|] eqn:Hsock;
    [|right; split; [by intros (? & ? & ? & _)|by destruct p]].
  destruct (sockets (hook p) !! ws) as [w|] eqn:Hw;
    [|right; split; [intros (? & ? & [= <-] & ? & _); congruence|by destruct p]].
  case_bool_decide as Hopen;
    [left|right; split;
           [intros (? & ? & [= <-] & ? & ?); congruence|by destruct p]].
  exists ws, w. repeat split; try done. simpl. unfold ws_send.
  by rewrite (list_alter_lookup_insert _ _ _ w Hw), Hopen.
Qed.

(** X11. startMonitoring, stopMonitoring and subscribeToPair change
    neither the reducer state nor the window nor the notifications; when
    the hook holds an open socket each hands it exactly one frame, the
    serialised command (for subscribeToPair with the pair_id given), after
    the frames sent before; otherwise the command is dropped and the
    provider is unchanged. *)
Theorem commands_send_one_frame_and_keep_the_state (pairId : value num date) p :
  sends_only (VObj {[ "type" := VStr "start_monitoring" ]}) p (startMonitoring p)
  ∧ sends_only (VObj {[ "type" := VStr "stop_monitoring" ]}) p (stopMonitoring p)
  ∧ sends_only (VObj {[ "type" := VStr "subscribe_pair"; "pair_id" := pairId ]})
      p (subscribeToPair pairId p).
Proof. repeat split; apply command_sends_only. Qed.

(** * Further properties of the hook *)

Lemma setSockets_id h : setSockets (sockets h) h = h.
Proof. by destruct h. Qed.

Lemma WebSocket_eta (w : WebSocket) : mkWebSocket (readyState w) (sent w) = w.
Proof. by destruct w. Qed.

Lemma sendMessage_open message ws w h :
  socket h = Some ws → sockets h !! ws = Some w → readyState w = OPEN →
  sendMessage message h
  = (setSockets
       (<[ws := mkWebSocket OPEN (sent w ++ [JSON_stringify message])]> (sockets h)) h,
     true).
Proof.
  intros Hsock Hw Hopen. unfold sendMessage, is_open, ws_send.
  rewrite Hsock, Hw, bool_decide_eq_true_2 by done.
  by rewrite (list_alter_lookup_insert _ _ _ w Hw), Hopen.
Qed.

Lemma sendMessage_not_connected message h :
  ¬ connected h → sendMessage message h = (h, false).
Proof.
  intros Hnot. unfold sendMessage, is_open.
  destruct (socket h) as [ws|] eqn:Hsock; [|done].
  destruct (sockets h !! ws) as [w|] eqn:Hw; [|done].
  case_bool_decide as Hopen; [|done].
  destruct Hnot. by exists ws, w.
Qed.

(** X12. A series of sendMessage calls on a hook that holds an open socket
    all return true and leave their frames on that socket in call order,
    after the frames sent before; on a hook without an open socket they all
    return false and the hook is unchanged. *)
Theorem frames_go_out_in_call_order (messages : list (value num date)) h :
  (∀ ws w, socket h = Some ws → sockets h !! ws = Some w → readyState w = OPEN →
     send_all messages h
     = (setSockets
          (<[ws := mkWebSocket OPEN (sent w ++ (JSON_stringify <$> messages))]>
             (sockets h)) h,
        replicate (length messages) true))
  ∧ (¬ connected h →
     send_all messages h = (h, replicate (length messages) false)).
Proof.
  split.
  - intros ws. revert h.
    induction messages as [|message messages IH]; intros h w Hsock Hw Hopen.
    { simpl. rewrite app_nil_r, <- Hopen, WebSocket_eta.
      by rewrite (list_insert_id _ _ _ Hw), setSockets_id. }
    simpl. rewrite (sendMessage_open message ws w h Hsock Hw Hopen).
    rewrite (IH _ (mkWebSocket OPEN (sent w ++ [JSON_stringify message])));
      [|done| |done].
    2:{ simpl. apply list_lookup_insert_eq. by eapply lookup_lt_Some. }
    simpl. by rewrite list_insert_insert_eq, <- (assoc_L (++)).
  - intros Hnot. induction messages as [|message messages IH]; [done|].
    simpl. by rewrite (sendMessage_not_connected _ _ Hnot), IH.
Qed.

(** ** disconnect *)

Lemma clearTimer_lookup id h :
  timers (clearTimer id h) !! id
  = (λ t, mkTimer (timer_delay t) (timer_callback t) (timer_repeating t) false)
      <$> timers h !! id.
Proof. unfold clearTimer. simpl. apply list_lookup_alter_eq. Qed.

Lemma disconnect_fields h :
  reconnectTimeoutRef (disconnect h) = reconnectTimeoutRef h
  ∧ reconnectAttemptsRef (disconnect h) = reconnectAttemptsRef h
  ∧ socket (disconnect h) = socket h
  ∧ timers (disconnect h)
    = match reconnectTimeoutRef h with
      | Some id => timers (clearTimer id h)
      | None => timers h
      end
  ∧ sockets (disconnect h)
    = match socket h with
      | Some ws => sockets (ws_close ws h)
      | None => sockets h
      end.
Proof.
  unfold disconnect.
  destruct (reconnectTimeoutRef h) as [id|] eqn:Href,
           (socket h) as [ws|] eqn:Hsock; simpl; rewrite ?Hsock; simpl;
    by rewrite ?Href, ?Hsock.
Qed.

Lemma disconnect_not_pending h : reconnect_pending (disconnect h) = false.
Proof.
  destruct (disconnect_fields h) as (Href & _ & _ & Ht & _).
  unfold reconnect_pending. rewrite Href, Ht.
  destruct (reconnectTimeoutRef h) as [id|]; [|done].
  rewrite clearTimer_lookup. by destruct (timers h !! id).
Qed.

Lemma ws_close_not_live ws w' h :
  sockets (ws_close ws h) !! ws = Some w' → live w' = false.
Proof.
  unfold ws_close. simpl. rewrite list_lookup_alter_eq.
  destruct (sockets h !! ws) as [w|]; [|done]. simpl. intros [= <-].
  unfold live. by destruct (readyState w) eqn:Hrs; simpl; rewrite ?Hrs.
Qed.

(** X13. disconnect clears the one timeout named by reconnectTimeoutRef,
    the last one set: afterwards that timeout is not pending and its elapse
    does nothing.  Every other timer, an earlier reconnect timeout whose
    identifier has been overwritten included, is left as it was.  Of the
    sockets only the held one is touched, and it is no longer live; no
    socket or timer is added or removed. *)
Theorem disconnect_clears_only_the_named_timeout h :
  reconnect_pending (disconnect h) = false
  ∧ timeout_elapses (disconnect h) = disconnect h
  ∧ (∀ id, reconnectTimeoutRef h ≠ Some id →
           timers (disconnect h) !! id = timers h !! id)
  ∧ (∀ ws w', socket h = Some ws → sockets (disconnect h) !! ws = Some w' →
              live w' = false)
  ∧ (∀ ws, socket h ≠ Some ws → sockets (disconnect h) !! ws = sockets h !! ws)
  ∧ length (sockets (disconnect h)) = length (sockets h)
  ∧ length (timers (disconnect h)) = length (timers h).
Proof.
  destruct (disconnect_fields h) as (Href & _ & _ & Ht & Hs).
  split; [apply disconnect_not_pending|].
  split; [apply timeout_elapses_idle, disconnect_not_pending|].
  split; [|split; [|split; [|split]]].
  - intros id Hid. rewrite Ht. destruct (reconnectTimeoutRef h) as [id0|]; [|done].
    unfold clearTimer. simpl. apply list_lookup_alter_ne. by intros ->.
  - intros ws w' Hsock. rewrite Hs, Hsock. apply ws_close_not_live.
  - intros ws Hws. rewrite Hs. destruct (socket h) as [ws0|]; [|done].
    unfold ws_close. simpl. apply list_lookup_alter_ne. by intros ->.
  - rewrite Hs. destruct (socket h); [|done].
    unfold ws_close. simpl. by rewrite length_alter.
  - rewrite Ht. destruct (reconnectTimeoutRef h); [|done].
    unfold clearTimer. simpl. by rewrite length_alter.
Qed.

(** X14. After disconnect nothing is sent: sendMessage returns false and
    leaves the hook as disconnect left it. *)
Theorem no_frame_after_disconnect message h :
  sendMessage message (disconnect h) = (disconnect h, false)
  ∧ sent <$> sockets (disconnect h) = sent <$> sockets h.
Proof.
  destruct (disconnect_fields h) as (_ & _ & Hsock & _ & Hs). split.
  - apply sendMessage_not_connected. intros (ws & w' & Hheld & Hw' & Hopen).
    rewrite Hsock in Hheld. rewrite Hs, Hheld in Hw'.
    apply ws_close_not_live in Hw'. unfold live in Hw'. by rewrite Hopen in Hw'.
  - rewrite Hs. destruct (socket h) as [ws|]; [|done].
    unfold ws_close. simpl. apply list_eq. intros i.
    rewrite !list_lookup_fmap.
    destruct (decide (ws = i)) as [->|Hne].
    + rewrite list_lookup_alter_eq. destruct (sockets h !! i) as [w|]; [|done].
      simpl. by destruct (readyState w).
    + by rewrite list_lookup_alter_ne.
Qed.

(** X15. disconnect is idempotent: a second call changes nothing. *)
Theorem disconnect_twice_is_disconnect_once h :
  disconnect (disconnect h) = disconnect h.
Proof.
  destruct h as [sock ic lm ce rt ra socks tms]. unfold disconnect. simpl.
  destruct rt as [id|], sock as [ws|]; simpl; unfold ws_close, clearTimer,
    setSockets, setTimers; simpl; f_equal;
    rewrite ?list_alter_alter_eq; try (apply list_alter_ext; [|done]);
    try done.
  all: intros w _; unfold compose; by destruct w as [[] ?].
Qed.

(** ** The heartbeat *)

Lemma ping_tick_open id ws w h :
  timers h !! id = Some (ping_timer ws) →
  sockets h !! ws = Some w → readyState w = OPEN →
  ev_timer id h
  = setSockets (<[ws := mkWebSocket OPEN (sent w ++ [ping_frame])]> (sockets h)) h.
Proof.
  intros Ht Hw Hopen. unfold ev_timer. rewrite Ht. simpl.
  unfold ping_tick, is_open, ws_send.
  rewrite Hw, bool_decide_eq_true_2 by done.
  by rewrite (list_alter_lookup_insert _ _ _ w Hw), Hopen.
Qed.

(** X17. The ping interval of a socket sends one ping frame per tick while
    the socket is open, after the frames sent before; at the first tick
    that finds the socket not open it clears itself without sending, and
    every later tick does nothing. *)
Theorem ping_heartbeat id ws h :
  timers h !! id = Some (ping_timer ws) →
  (∀ w n, sockets h !! ws = Some w → readyState w = OPEN →
     Nat.iter n (ev_timer id) h
     = setSockets
         (<[ws := mkWebSocket OPEN (sent w ++ replicate n ping_frame)]>
            (sockets h)) h)
  ∧ (is_open h ws = false →
     ev_timer id h = clearTimer id h
     ∧ sockets (ev_timer id h) = sockets h
     ∧ ∀ n, Nat.iter n (ev_timer id) (clearTimer id h) = clearTimer id h).
Proof.
  intros Ht. split.
  - intros w n Hw Hopen. induction n as [|n IH].
    { simpl. rewrite app_nil_r, <- Hopen, WebSocket_eta.
      by rewrite (list_insert_id _ _ _ Hw), setSockets_id. }
    simpl. rewrite IH.
    rewrite (ping_tick_open id ws
               (mkWebSocket OPEN (sent w ++ replicate n ping_frame))); try done.
    + simpl. by rewrite list_insert_insert_eq, <- (assoc_L (++)), replicate_cons_app.
    + simpl. apply list_lookup_insert_eq. by eapply lookup_lt_Some.
  - intros Hclosed.
    assert (ev_timer id h = clearTimer id h) as Htick.
    { unfold ev_timer. rewrite Ht. simpl. unfold ping_tick. by rewrite Hclosed. }
    split; [done|]. split; [by rewrite Htick|].
    intros n. induction n as [|n IH]; [done|].
    simpl. rewrite IH. unfold ev_timer.
    by rewrite clearTimer_lookup, Ht.
Qed.

(** ** Open, then an abnormal close *)

(** What the close handler leaves when the held socket closes. *)
Lemma closure_held code ws w h :
  socket h = Some ws → sockets h !! ws = Some w → readyState w ≠ CLOSED →
  closure code h
  = let base :=
      setSocket None
        (setIsConnected false
           (setSockets (<[ws := mkWebSocket CLOSED (sent w)]> (sockets h)) h)) in
    if bool_decide (code ≠ 1000%Z)
       && bool_decide (reconnectAttemptsRef h < maxReconnectAttempts)
    then setReconnectTimeoutRef (Some (length (timers h)))
           (setTimers (timers h ++ [armed_reconnect (reconnectAttemptsRef h)]) base)
    else base.
Proof.
  intros Hsock Hw Hrs. unfold closure, ev_close. rewrite Hsock, Hw.
  destruct (readyState w); [| | |done]; unfold ws_onclose; simpl;
    by destruct (_ && _).
Qed.

(** X19. A successful open starts the schedule afresh whatever the counter
    was: the hook reports connected with no error, the counter is 0 and the
    socket has its 30 s ping interval; if the socket then closes abnormally
    the close handler sets a reconnect timeout of 1 s, records it in
    reconnectTimeoutRef, and leaves the hook not connected and without a
    socket. *)
Theorem open_restarts_the_backoff (code : Z) ws w h :
  socket h = Some ws → sockets h !! ws = Some w → readyState w = CONNECTING →
  code ≠ 1000%Z →
  let h1 := ev_open ws h in
  let h2 := closure code h1 in
  isConnected h1 = true ∧ connectionError h1 = None
  ∧ reconnectAttemptsRef h1 = 0
  ∧ timers h1 = timers h ++ [ping_timer ws]
  ∧ timers h2 = timers h ++ [ping_timer ws; armed_reconnect 0]
  ∧ timer_delay (armed_reconnect 0) = 1000%Z
  ∧ reconnectTimeoutRef h2 = Some (S (length (timers h)))
  ∧ reconnectAttemptsRef h2 = 0
  ∧ isConnected h2 = false
  ∧ socket h2 = None.
Proof.
  intros Hsock Hw Hrs Hcode h1 h2.
  assert (h1 = ws_onopen ws
                 (setSockets (<[ws := mkWebSocket OPEN (sent w)]> (sockets h)) h))
    as Hh1.
  { unfold h1, ev_open. by rewrite Hw, Hrs. }
  assert (sockets h1 !! ws = Some (mkWebSocket OPEN (sent w))) as Hw1.
  { rewrite Hh1. simpl. apply list_lookup_insert_eq. by eapply lookup_lt_Some. }
  assert (socket h1 = Some ws) as Hsock1 by (by rewrite Hh1).
  assert (reconnectAttemptsRef h1 = 0) as Ha1 by (by rewrite Hh1).
  unfold h2. rewrite (closure_held code ws _ h1 Hsock1 Hw1) by done.
  cbv zeta. rewrite Ha1, (bool_decide_eq_true_2 _ Hcode).
  unfold maxReconnectAttempts. rewrite bool_decide_eq_true_2 by lia.
  rewrite Hh1. simpl.
  repeat split; try done.
  - by rewrite <- (assoc_L (++)).
  - by rewrite length_app, Nat.add_1_r.
Qed.

(** * The hook as mounted *)

(** ** Cleanups and renders *)

Lemma deactivate_idle h :
  reconnect_pending h = false →
  match reconnectTimeoutRef h with
  | Some id => clearTimer id h
  | None => h
  end = h.
Proof.
  unfold reconnect_pending. destruct (reconnectTimeoutRef h) as [id|]; [|done].
  unfold clearTimer. intros Hidle.
  assert (alter (λ t, mkTimer (timer_delay t) (timer_callback t)
                        (timer_repeating t) false) id (timers h) = timers h)
    as ->; [|by destruct h].
  destruct (timers h !! id) as [t|] eqn:Ht.
  - rewrite (list_alter_lookup_insert _ _ _ t Ht).
    destruct t as [d cb rp act]. simpl in Hidle. subst act.
    by apply list_insert_id.
  - apply list_eq. intros i. destruct (decide (id = i)) as [->|Hne].
    + by rewrite list_lookup_alter_eq, Ht.
    + by rewrite list_lookup_alter_ne.
Qed.

(** The cleanup on a hook with no reconnect timeout pending only closes
    the socket it captured. *)
Lemma disconnect_of_idle captured h :
  reconnect_pending h = false →
  disconnect_of captured h
  = match captured with
    | Some ws => ws_close ws h
    | None => h
    end.
Proof. intros Hidle. unfold disconnect_of. by rewrite (deactivate_idle h Hidle). Qed.

Lemma disconnect_is_disconnect_of h : disconnect h = disconnect_of (socket h) h.
Proof.
  unfold disconnect, disconnect_of.
  destruct (reconnectTimeoutRef h); simpl; done.
Qed.

Lemma ws_close_other r ws h :
  r ≠ ws → sockets (ws_close r h) !! ws = sockets h !! ws.
Proof. intros Hne. unfold ws_close. simpl. by apply list_lookup_alter_ne. Qed.

(** A render that finds the effect due runs it: one transport more, the
    same timers and counter, and the effect is due again. *)
Lemma render_due m :
  WebSocket_url_ok = true → effect_due m →
  spinning (render m)
  ∧ timers (cells (render m)) = timers (cells m)
  ∧ reconnectAttemptsRef (cells (render m)) = reconnectAttemptsRef (cells m)
  ∧ sockets (cells (render m))
    = sockets (disconnect_of (rendered_socket m) (cells m))
      ++ [mkWebSocket CONNECTING []]
  ∧ length (sockets (cells (render m))) = S (length (sockets (cells m)))
  ∧ socket (cells (render m)) = Some (length (sockets (cells m)))
  ∧ rendered_socket (render m) = socket (cells m).
Proof.
  intros Hurl (ws & w & Hsock & Hw & Hlive & Hne & Hidle).
  unfold render. rewrite Hsock.
  destruct (decide (Some ws = rendered_socket m)) as [Heq|_]; [by destruct Hne|].
  rewrite (disconnect_of_idle _ _ Hidle). unfold connect. rewrite Hurl.
  assert (∃ h', match rendered_socket m with
                | Some r => ws_close r (cells m)
                | None => cells m
                end = h'
                ∧ timers h' = timers (cells m)
                ∧ reconnectTimeoutRef h' = reconnectTimeoutRef (cells m)
                ∧ reconnectAttemptsRef h' = reconnectAttemptsRef (cells m)
                ∧ length (sockets h') = length (sockets (cells m))
                ∧ sockets h' !! ws = Some w)
    as (h' & -> & Ht & Href & Ha & Hlen & Hw').
  { eexists. split; [reflexivity|].
    destruct (rendered_socket m) as [r|]; [|done].
    unfold ws_close. simpl. rewrite length_alter.
    repeat split; try done.
    rewrite list_lookup_alter_ne; [done|]. intros ->. by destruct Hne. }
  simpl. split;
    [|repeat split; try done; [rewrite length_app; simpl; lia|by rewrite Hlen]].
  split; [|by eexists].
  exists (length (sockets h')), (mkWebSocket CONNECTING []). simpl.
  split; [done|]. split; [by apply list_lookup_middle|]. split; [done|].
  split.
  - intros [= Heq]. apply lookup_lt_Some in Hw'. lia.
  - unfold reconnect_pending in *. simpl. by rewrite Href, Ht.
Qed.

Lemma renders_spinning k m :
  WebSocket_url_ok = true → spinning m →
  spinning (Nat.iter k render m)
  ∧ timers (cells (Nat.iter k render m)) = timers (cells m)
  ∧ reconnectAttemptsRef (cells (Nat.iter k render m))
    = reconnectAttemptsRef (cells m)
  ∧ length (sockets (cells (Nat.iter k render m)))
    = length (sockets (cells m)) + k.
Proof.
  intros Hurl Hspin. induction k as [|k (Hs & Ht & Ha & Hl)].
  { simpl. do 3 (split; [done|]). lia. }
  simpl. destruct (render_due _ Hurl (proj1 Hs)) as (Hs' & Ht' & Ha' & _ & Hl' & _).
  split; [exact Hs'|]. split; [congruence|]. split; [congruence|].
  rewrite Hl', Hl. lia.
Qed.

Lemma render_act m :
  socket (cells m) ≠ rendered_socket m →
  render m
  = mkMounted (connect (disconnect_of (rendered_socket m) (cells m)))
      (socket (cells m)).
Proof. intros Hne. unfold render. by destruct (decide _). Qed.

(** The held socket closes and React renders: whatever the close handler
    set is cancelled un-fired, and a transport is opened at once. *)
Lemma close_and_render code m :
  WebSocket_url_ok = true → spinning m →
  let a := reconnectAttemptsRef (cells m) in
  let m' := render (held_closes code m) in
  effect_due m'
  ∧ timers (cells m')
    = timers (cells m)
      ++ (if bool_decide (code ≠ 1000%Z) && bool_decide (a < maxReconnectAttempts)
          then [cleared_reconnect a] else [])
  ∧ reconnectAttemptsRef (cells m') = a
  ∧ length (sockets (cells m')) = S (length (sockets (cells m)))
  ∧ socket (cells m') = Some (length (sockets (cells m)))
  ∧ sockets (cells m') !! length (sockets (cells m))
    = Some (mkWebSocket CONNECTING [])
  ∧ isConnected (cells m') = false.
Proof.
  intros Hurl [(ws & w & Hsock & Hw & Hlive & Hne & Hidle) [r Hr]] a m'.
  apply live_not_closed in Hlive.
  assert (∀ (l : list WebSocket) f x,
            length l = length (sockets (cells m)) →
            (alter f r l ++ [x]) !! length (sockets (cells m)) = Some x)
    as Hlast.
  { intros l f x Hl. apply list_lookup_middle. by rewrite length_alter. }
  unfold m', held_closes.
  rewrite (closure_held code ws w (cells m) Hsock Hw Hlive). cbv zeta. fold a.
  destruct (bool_decide (code ≠ 1000%Z) && bool_decide (a < maxReconnectAttempts))
    eqn:Hguard.
  - rewrite render_act by (simpl; by rewrite Hr).
    cbn [cells rendered_socket]. rewrite Hr.
    unfold disconnect_of, connect. simpl. rewrite Hurl.
    unfold clearTimer, ws_close. simpl.
    rewrite (alter_app_r_alt _ _ _ (length (timers (cells m)))) by lia.
    rewrite Nat.sub_diag. simpl.
    split; [|split; [done|split; [done|split; [|split; [|split; [|done]]]]]].
    + eexists _, _. simpl. split; [done|].
      split; [by apply list_lookup_middle|].
      split; [done|]. split; [done|].
      unfold reconnect_pending. simpl. by rewrite list_lookup_middle.
    + rewrite length_app, length_alter, length_insert. simpl. lia.
    + by rewrite length_alter, length_insert.
    + apply Hlast. by rewrite length_insert.
  - assert (reconnect_pending
              (setSocket None
                 (setIsConnected false
                    (setSockets (<[ws := mkWebSocket CLOSED (sent w)]>
                                   (sockets (cells m))) (cells m)))) = false)
      as Hidle' by done.
    rewrite render_act by (simpl; by rewrite Hr).
    cbn [cells rendered_socket]. rewrite Hr, (disconnect_of_idle _ _ Hidle').
    unfold connect. rewrite Hurl.
    unfold ws_close. simpl. rewrite app_nil_r.
    split; [|split; [done|split; [done|split; [|split; [|split; [|done]]]]]].
    + eexists _, _. simpl. split; [done|].
      split; [by apply list_lookup_middle|].
      split; [done|]. split; [done|]. done.
    + rewrite length_app, length_alter, length_insert. simpl. lia.
    + by rewrite length_alter, length_insert.
    + apply Hlast. by rewrite length_insert.
Qed.

Lemma mount_effect_due : WebSocket_url_ok = true → effect_due mount.
Proof.
  intros Hurl. unfold effect_due, mount, connect. rewrite Hurl. simpl.
  by exists 0, (mkWebSocket CONNECTING []).
Qed.

Lemma render_mount_spinning : WebSocket_url_ok = true → spinning (render mount).
Proof. intros Hurl. apply render_due; [done|by apply mount_effect_due]. Qed.

(** ** Reconnection on the mounted hook *)

(** One round at counter [a] below the cap with an abnormal code. *)
Lemma reconnect_round_spinning code k m :
  WebSocket_url_ok = true → spinning m → code ≠ 1000%Z →
  reconnectAttemptsRef (cells m) < 5 →
  let m' := reconnect_round (code, k) m in
  spinning m'
  ∧ timers (cells m')
    = timers (cells m) ++ [cleared_reconnect (reconnectAttemptsRef (cells m))]
  ∧ reconnectAttemptsRef (cells m') = reconnectAttemptsRef (cells m)
  ∧ length (sockets (cells m')) = length (sockets (cells m)) + (2 + k).
Proof.
  intros Hurl Hspin Hcode Hlt m'.
  destruct (close_and_render code m Hurl Hspin) as (Hdue & Ht & Ha & Hl & _).
  rewrite (bool_decide_eq_true_2 _ Hcode) in Ht.
  unfold maxReconnectAttempts in Ht. rewrite bool_decide_eq_true_2 in Ht by lia.
  simpl in Ht.
  destruct (render_due _ Hurl Hdue) as (Hspin' & Ht' & Ha' & _ & Hl' & _).
  destruct (renders_spinning k _ Hurl Hspin') as (Hspin'' & Ht'' & Ha'' & Hl'').
  unfold m', reconnect_round. simpl.
  split; [done|]. split; [congruence|]. split; [congruence|].
  rewrite Hl'', Hl', Hl. lia.
Qed.

(** C3, on the mounted hook. Each abnormal closure of the held socket is
    followed at the next render by the effect of the hook, whose cleanup
    cancels the timeout the close handler has just set and whose body
    connects at once.  So whatever the number of closures, every timeout set
    is the first of the schedule (1 s), none of them fires, the counter
    stays 0, a transport is opened at every render, and reconnection never
    stops at five attempts. *)
Theorem reconnects_ignore_the_backoff (rounds : list (Z * nat)) m :
  WebSocket_url_ok = true →
  spinning m → reconnectAttemptsRef (cells m) = 0 →
  Forall (λ round, round.1 ≠ 1000%Z) rounds →
  let m' := reconnect_rounds rounds m in
  timers (cells m')
  = timers (cells m) ++ replicate (length rounds) (cleared_reconnect 0)
  ∧ timer_delay <$> drop (length (timers (cells m))) (timers (cells m'))
    = replicate (length rounds) 1000%Z
  ∧ timer_active <$> drop (length (timers (cells m))) (timers (cells m'))
    = replicate (length rounds) false
  ∧ reconnectAttemptsRef (cells m') = 0
  ∧ length (sockets (cells m'))
    = length (sockets (cells m)) + sum_list ((λ round, 2 + round.2) <$> rounds)
  ∧ spinning m'.
Proof.
  intros Hurl Hspin Hzero Hcodes m'.
  assert (timers (cells m')
          = timers (cells m) ++ replicate (length rounds) (cleared_reconnect 0)
          ∧ reconnectAttemptsRef (cells m') = 0
          ∧ length (sockets (cells m'))
            = length (sockets (cells m))
              + sum_list ((λ round, 2 + round.2) <$> rounds)
          ∧ spinning m') as (Ht & Ha & Hl & Hspin').
  { unfold m', reconnect_rounds. clear m'. revert m Hspin Hzero.
    induction Hcodes as [|[code k] rounds Hcode Hcodes IH]; intros m Hspin Hzero.
    { simpl. rewrite app_nil_r. split; [done|]. split; [done|].
      split; [lia|done]. }
    simpl in Hcode.
    destruct (reconnect_round_spinning code k m Hurl Hspin Hcode)
      as (Hspin1 & Ht1 & Ha1 & Hl1); [lia|].
    rewrite Hzero in Ht1, Ha1.
    destruct (IH _ Hspin1 Ha1) as (Ht & Ha & Hl & Hspin').
    simpl. rewrite Ht, Ht1, Hl, Hl1, <- (assoc_L (++)). simpl.
    split; [done|]. split; [done|]. split; [unfold fmap; lia|exact Hspin']. }
  split; [done|]. rewrite Ht, drop_app_length.
  split; [by rewrite fmap_replicate|]. split; [by rewrite fmap_replicate|].
  done.
Qed.


(** ** The render loop *)

Lemma mount_cells :
  WebSocket_url_ok = true →
  mount
  = mkMounted
      (mkHook (Some 0) false VNull None None 0 [mkWebSocket CONNECTING []] [])
      None.
Proof. intros Hurl. unfold mount, connect. by rewrite Hurl. Qed.

Lemma replicate_app_cons {A} k (x : A) l :
  replicate k x ++ x :: l = x :: replicate k x ++ l.
Proof. induction k as [|k IH]; [done|]. simpl. by rewrite IH. Qed.

Lemma renders_of_mount k :
  WebSocket_url_ok = true →
  Nat.iter (S k) render mount
  = mkMounted
      (mkHook (Some (S k)) false VNull None None 0
         (replicate k (mkWebSocket CLOSING [])
          ++ [mkWebSocket CONNECTING []; mkWebSocket CONNECTING []]) [])
      (Some k).
Proof.
  intros Hurl. induction k as [|k IH].
  { change (Nat.iter 1 render mount) with (render mount).
    rewrite (mount_cells Hurl), render_act by done.
    unfold disconnect_of, connect. simpl. by rewrite Hurl. }
  change (Nat.iter (S (S k)) render mount)
    with (render (Nat.iter (S k) render mount)).
  rewrite IH. rewrite render_act by (simpl; intros [=]; lia).
  unfold disconnect_of, connect. simpl. rewrite Hurl.
  unfold ws_close, setSockets, setSocket. simpl. f_equal. f_equal.
  - f_equal. rewrite length_alter, length_app, length_replicate. simpl. lia.
  - rewrite (alter_app_r_alt _ _ _ k) by (by rewrite length_replicate).
    rewrite length_replicate, Nat.sub_diag. simpl.
    rewrite <- (assoc_L (++)). simpl. apply replicate_app_cons.
Qed.

Lemma no_live_among_closing k :
  List.filter live (replicate k (mkWebSocket CLOSING [])) = [].
Proof. induction k as [|k IH]; [done|]. simpl. exact IH. Qed.

(** X18. With a URL the constructor accepts the mounted hook never
    settles: every render finds a socket other than the one the last render
    saw, calls close on that older one and connects again.  After n renders
    n + 1 transports have been opened, the two newest are connecting at the
    same time, every older one is closing, and the next render will change
    the hook again. *)
Theorem mounted_hook_keeps_connecting (n : nat) :
  WebSocket_url_ok = true →
  let m := Nat.iter n render mount in
  sockets (cells m)
  = replicate (n - 1) (mkWebSocket CLOSING [])
    ++ replicate (2 `min` S n) (mkWebSocket CONNECTING [])
  ∧ socket (cells m) = Some n
  ∧ rendered_socket m = match n with 0 => None | S k => Some k end
  ∧ live_count (cells m) = 2 `min` S n
  ∧ timers (cells m) = []
  ∧ reconnectAttemptsRef (cells m) = 0
  ∧ render m ≠ m.
Proof.
  intros Hurl m.
  assert (render m ≠ m) as Hmoves.
  { unfold m. change (render (Nat.iter n render mount))
      with (Nat.iter (S n) render mount).
    rewrite (renders_of_mount n Hurl). destruct n as [|k].
    - simpl. rewrite (mount_cells Hurl). by intros [=].
    - rewrite (renders_of_mount k Hurl). intros [= Heq]. lia. }
  unfold m in *. destruct n as [|k].
  { change (Nat.iter 0 render mount) with mount in *.
    rewrite (mount_cells Hurl) in Hmoves |- *. by simpl. }
  rewrite (renders_of_mount k Hurl) in Hmoves |- *. simpl.
  rewrite Nat.sub_0_r. repeat split; try done.
  unfold live_count. simpl.
  by rewrite List.filter_app, no_live_among_closing.
Qed.

End Properties.

(** * The model on the sample host *)

(** C6, at two alerts handled within one millisecond: the two records are
    different but carry the same [id], the common clock reading; each holds
    the [Date] parsed from its timestamp. *)
Theorem alert_ids_collide_within_a_millisecond :
  ∃ p', process Sample.two_alerts Sample.provider = Ok p'
        ∧ alerts (state p') = [Sample.record_b; Sample.record_a]
        ∧ Sample.record_a ≠ Sample.record_b
        ∧ Get Sample.record_a "id" = Ok (VNum Sample.clock)
        ∧ Get Sample.record_b "id" = Ok (VNum Sample.clock)
        ∧ Get Sample.record_a "timestamp" = Ok (VDate 1727346615000%Z)
        ∧ Get Sample.record_b "timestamp" = Ok (VDate 1727346615000%Z).
Proof.
  eexists. split; [vm_compute; reflexivity|].
  split; [vm_compute; reflexivity|].
  split; [|by vm_compute].
  intros Heq.
  assert (Get Sample.record_a "message" = Get Sample.record_b "message") as Hmsg
    by (by rewrite Heq).
  vm_compute in Hmsg. discriminate Hmsg.
Qed.

(** C4 as stated fails: a second connect issued while the first transport
    is still connecting changes the hook and leaves two live transports. *)
Lemma connect_while_connecting_opens_second_transport :
  busy Sample.mounted
  ∧ connect Sample.mounted ≠ Sample.mounted
  ∧ live_count Sample.mounted = 1
  ∧ live_count (connect Sample.mounted) = 2.
Proof.
  split; [|split; [|split]]; [|by vm_compute..].
  exists 0, (mkWebSocket CONNECTING []). by vm_compute.
Qed.

(** ** The theorems at concrete inputs *)

Lemma sample_alert_processed (message : string) :
  alert_processed None
    (Sample.clock, Sample.envelope "alert" (VObj (Sample.alert_data message)))
    (Sample.record_of message).
Proof.
  exists (VObj (Sample.alert_data message)). split; [|split; [|done]].
  - eexists. split; [reflexivity|]. split; reflexivity.
  - reflexivity.
Defined.

Lemma alerts_newest_first_bounded_witness :
  Forall2 (alert_processed (window_Notification Sample.provider))
    Sample.two_alerts [Sample.record_a; Sample.record_b]
  ∧ length (alerts (state Sample.provider)) ≤ 50
  ∧ ∃ p', process Sample.two_alerts Sample.provider = Ok p'
          ∧ alerts (state p')
            = take 50 (reverse [Sample.record_a; Sample.record_b]
                       ++ alerts (state Sample.provider))
          ∧ length (alerts (state p')) ≤ 50
          ∧ (∀ r, last [Sample.record_a; Sample.record_b] = Some r →
                  alerts (state p') !! 0 = Some r).
Proof.
  assert (Forall2 (alert_processed (window_Notification Sample.provider))
            Sample.two_alerts [Sample.record_a; Sample.record_b]) as Hall.
  { repeat constructor; apply sample_alert_processed. }
  assert (length (alerts (state Sample.provider)) ≤ 50) as Hlen.
  { simpl. lia. }
  split; [exact Hall|]. split; [exact Hlen|].
  exact (alerts_newest_first_bounded _ _ _ Hall Hlen).
Defined.

Lemma sample_pair_update (payload : value Z Z) :
  (pid ← Get payload "pair_id"; ToString pid) = Ok "P1" →
  pair_update_for "P1" (Sample.clock, Sample.envelope "pair_update" payload) payload.
Proof.
  intros Hkey. split; [|exact Hkey].
  eexists. split; [reflexivity|]. split; reflexivity.
Defined.

Lemma pair_updates_merge_in_order_witness :
  Forall2 (pair_update_for "P1") Sample.two_updates [Sample.update_1; Sample.update_2]
  ∧ ∃ p', process Sample.two_updates Sample.provider = Ok p'
          ∧ (Sample.two_updates ≠ [] →
             pairs (state p') !! "P1"
             = Some (foldl merge_props (pair_entry (state Sample.provider) "P1")
                       (spread <$> [Sample.update_1; Sample.update_2])))
          ∧ (Sample.two_updates ≠ [] → pairs (state Sample.provider) !! "P1" = None →
             pairs (state p') !! "P1"
             = Some (foldl merge_props ∅ (spread <$> [Sample.update_1; Sample.update_2])))
          ∧ (∀ field,
               foldl merge_props (pair_entry (state Sample.provider) "P1")
                 (spread <$> [Sample.update_1; Sample.update_2]) !! field
               = last_wins field (pair_entry (state Sample.provider) "P1" !! field)
                   [Sample.update_1; Sample.update_2]).
Proof.
  assert (Forall2 (pair_update_for "P1") Sample.two_updates
            [Sample.update_1; Sample.update_2]) as Hall.
  { repeat constructor; apply sample_pair_update; reflexivity. }
  split; [exact Hall|].
  exact (pair_updates_merge_in_order "P1" _ _ Sample.provider Hall).
Defined.

Lemma unknown_kind_and_pong_change_nothing_witness :
  (∀ kind, kind ∈ known_kinds → Get Sample.heartbeat "type" ≠ Ok (VStr kind))
  ∧ Get Sample.pong "type" = Ok (VStr "pong")
  ∧ process [(Sample.clock, Sample.heartbeat); (Sample.clock, Sample.pong)]
      Sample.provider = Ok Sample.provider.
Proof.
  assert (∀ kind, kind ∈ known_kinds →
                  Get Sample.heartbeat "type" ≠ Ok (VStr kind)) as Hunknown.
  { intros kind Hin. unfold known_kinds in Hin.
    repeat (apply elem_of_cons in Hin as [->|Hin]; [discriminate|]).
    by apply elem_of_nil in Hin. }
  assert (Get Sample.pong "type" = Ok (VStr "pong")) as Hpong by reflexivity.
  split; [exact Hunknown|]. split; [exact Hpong|].
  rewrite (proj2 (proj1 (unknown_kind_and_pong_change_nothing
                           Sample.clock Sample.heartbeat
                           [(Sample.clock, Sample.pong)] Sample.provider)
                   Hunknown)).
  rewrite (proj2 (proj2 (unknown_kind_and_pong_change_nothing
                           Sample.clock Sample.pong [] Sample.provider)
                   Hpong)).
  reflexivity.
Defined.

Lemma keyless_payload_goes_under_undefined_witness :
  (∃ p', on_lastMessage Sample.clock
           (VObj (Sample.keyless_envelope "pair_update")) Sample.provider = Ok p'
         ∧ pairs (state p') !! "undefined" = Some Sample.keyless)
  ∧ (∃ p', on_lastMessage Sample.clock
             (VObj (Sample.keyless_envelope "price_update")) Sample.provider = Ok p'
           ∧ prices (state p') !! "undefined" = Some (VObj Sample.keyless)).
Proof.
  destruct (keyless_payload_goes_under_undefined Sample.clock
              (Sample.keyless_envelope "pair_update") (VObj Sample.keyless)
              Sample.provider eq_refl) as (Hpair & _ & _).
  destruct (keyless_payload_goes_under_undefined Sample.clock
              (Sample.keyless_envelope "price_update") (VObj Sample.keyless)
              Sample.provider eq_refl) as (_ & Hprice & _).
  split.
  - destruct (Hpair eq_refl eq_refl) as (p' & Hstep & Hpairs & _).
    exists p'. split; [exact Hstep|]. rewrite Hpairs. reflexivity.
  - destruct (Hprice eq_refl eq_refl) as (p' & Hstep & Hprices & _).
    exists p'. split; [exact Hstep|]. rewrite Hprices. reflexivity.
Defined.

(** C10 as stated fails: a price_update whose data is null has no symbol,
    and handling it throws. *)
Lemma price_update_with_null_data_throws :
  Get Sample.price_update_with_null_data "type" = Ok (VStr "price_update")
  ∧ Get Sample.price_update_with_null_data "data" = Ok VNull
  ∧ on_lastMessage Sample.clock Sample.price_update_with_null_data Sample.provider
    = Throw TypeError.
Proof. repeat split; vm_compute; reflexivity. Qed.

Lemma reconnects_ignore_the_backoff_witness :
  let m := Sample.twice_rendered in
  let m' := reconnect_rounds Sample.six_rounds m in
  timer_delay <$> drop (length (timers (cells m))) (timers (cells m'))
  = replicate (length Sample.six_rounds) 1000%Z
  ∧ timer_active <$> drop (length (timers (cells m))) (timers (cells m'))
    = replicate (length Sample.six_rounds) false
  ∧ reconnectAttemptsRef (cells m') = 0
  ∧ length Sample.six_rounds = 6.
Proof.
  intros m m'.
  assert (@WebSocket_url_ok Z Z Sample.host = true) as Hurl by reflexivity.
  assert (Forall (λ round : Z * nat, round.1 ≠ 1000%Z) Sample.six_rounds)
    as Hcodes.
  { repeat constructor; discriminate. }
  destruct (reconnects_ignore_the_backoff Sample.six_rounds Sample.twice_rendered
              Hurl (render_mount_spinning Hurl) eq_refl Hcodes)
    as (_ & Hdelays & Hactive & Hzero & _).
  split; [exact Hdelays|]. split; [exact Hactive|]. split; [exact Hzero|].
  reflexivity.
Defined.

(** ** The scenarios of the feed *)

(** Sixty alerts: the fifty newest are kept, newest first. *)
Example sixty_alerts_keep_the_fifty_newest :
  ∃ p', process (Sample.numbered_alerts 60) Sample.provider = Ok p'
        ∧ (λ r, Get r "id") <$> alerts (state p')
          = (λ k, Ok (VNum (Z.of_nat k))) <$> reverse (seq 10 50).
Proof. eexists. split; vm_compute; reflexivity. Qed.

(** The later of two prices of one symbol is the one kept. *)
Example later_price_overwrites :
  ∃ p', process Sample.two_prices Sample.provider = Ok p'
        ∧ prices (state p') !! "7203" = Some (Sample.price 2875).
Proof. eexists. split; vm_compute; reflexivity. Qed.

(** A pair_update without [data] makes the reducer read a property of
    [undefined]: the handler throws. *)
Example pair_update_without_data_throws :
  on_lastMessage Sample.clock (VObj {[ "type" := VStr "pair_update" ]})
    Sample.provider = Throw TypeError.
Proof. vm_compute. reflexivity. Qed.

(** Nothing is sent while the socket is connecting; once it is open the
    frame goes out. *)
Example send_before_and_after_open :
  snd (sendMessage Sample.pong Sample.mounted) = false
  ∧ sendMessage Sample.pong (ev_open 0 Sample.mounted)
    = (ws_send 0 "type=pong" (ev_open 0 Sample.mounted), true)
  ∧ sent <$> sockets (fst (sendMessage Sample.pong (ev_open 0 Sample.mounted)))
    = [["type=pong"]].
Proof. repeat split; vm_compute; reflexivity. Qed.

(** disconnect called during the backoff wait, with no render in between,
    clears the timeout: when its delay runs out no transport is opened. *)
Example disconnect_during_backoff :
  let waiting := closure 1006 Sample.mounted in
  reconnect_pending waiting = true
  ∧ length (sockets (timeout_elapses waiting)) = 2
  ∧ length (sockets (timeout_elapses (disconnect waiting))) = 1
  ∧ live_count (timeout_elapses (disconnect waiting)) = 0.
Proof. repeat split; vm_compute; reflexivity. Qed.

(** ** The further properties at concrete inputs *)

Lemma sample_price_update (payload : value Z Z) :
  (sym ← Get payload "symbol"; ToString sym) = Ok "7203" →
  price_update_for "7203" (Sample.clock, Sample.envelope "price_update" payload)
    payload.
Proof.
  intros Hkey. split; [|exact Hkey].
  eexists. split; [reflexivity|]. split; reflexivity.
Defined.

Lemma price_updates_keep_the_last_payload_witness :
  ∃ p', process Sample.two_prices Sample.provider = Ok p'
        ∧ prices (state p') !! "7203" = Some (Sample.price 2875).
Proof.
  assert (Forall2 (price_update_for "7203") Sample.two_prices
            [Sample.price 2850; Sample.price 2875]) as Hall.
  { repeat constructor; apply sample_price_update; reflexivity. }
  destruct (price_updates_keep_the_last_payload "7203" _ _ Sample.provider Hall)
    as (p' & Hrun & Hlast & _).
  exists p'. split; [exact Hrun|exact Hlast].
Defined.

Lemma system_status_merges_any_data_witness :
  ∃ p', on_lastMessage Sample.clock Sample.status_without_data Sample.provider = Ok p'
        ∧ systemStatus (state p') = systemStatus (state Sample.provider).
Proof.
  assert (envelope_of "system_status" Sample.status_without_data VUndefined)
    as Henv.
  { eexists. split; [reflexivity|]. split; reflexivity. }
  destruct (system_status_merges_any_data Sample.clock _ _ Sample.provider Henv)
    as (p' & Hstep & _ & Hsame & _).
  exists p'. split; [exact Hstep|exact (Hsame eq_refl)].
Defined.

Lemma inbound_stream_leaves_the_hook_alone_witness :
  ∃ p', process Sample.two_alerts Sample.provider_granted = Ok p'
        ∧ hook p' = hook Sample.provider_granted
        ∧ length (alerts (state p')) ≤ 50.
Proof.
  assert (∃ p', process Sample.two_alerts Sample.provider_granted = Ok p')
    as [p' Hrun].
  { eexists. vm_compute. reflexivity. }
  destruct (inbound_stream_leaves_the_hook_alone _ _ _ Hrun)
    as (Hhook & _ & _ & _ & Hlen).
  exists p'. split; [exact Hrun|]. split; [exact Hhook|].
  apply Hlen. simpl. lia.
Defined.

Lemma state_parts_change_only_by_their_kind_witness :
  ∃ p', process Sample.two_prices Sample.provider = Ok p'
        ∧ alerts (state p') = alerts (state Sample.provider)
        ∧ pairs (state p') = pairs (state Sample.provider).
Proof.
  assert (∃ p', process Sample.two_prices Sample.provider = Ok p') as [p' Hrun].
  { eexists. vm_compute. reflexivity. }
  destruct (state_parts_change_only_by_their_kind _ _ _ Hrun)
    as (Hpairs & Halerts & _).
  exists p'. split; [exact Hrun|]. split.
  - apply Halerts. repeat constructor; intros Hty; vm_compute in Hty;
      discriminate Hty.
  - apply Hpairs. repeat constructor; intros Hty; vm_compute in Hty;
      discriminate Hty.
Defined.

Lemma update_without_data_throws_witness :
  on_lastMessage Sample.clock (VObj Sample.update_without_data) Sample.provider
  = Throw TypeError.
Proof.
  apply (update_without_data_throws Sample.clock Sample.update_without_data
           "pair_update" Sample.provider).
  - repeat constructor.
  - reflexivity.
  - reflexivity.
Defined.

Lemma replayed_update_changes_nothing_witness :
  ∃ p1, on_lastMessage Sample.clock
          (Sample.envelope "pair_update" Sample.update_1) Sample.provider = Ok p1
        ∧ on_lastMessage 0%Z
            (Sample.envelope "pair_update" Sample.update_1) p1 = Ok p1.
Proof.
  assert (∃ p1, on_lastMessage Sample.clock
                  (Sample.envelope "pair_update" Sample.update_1) Sample.provider
                = Ok p1) as [p1 Hstep].
  { eexists. vm_compute. reflexivity. }
  exists p1. split; [exact Hstep|].
  apply (replayed_update_changes_nothing Sample.clock 0%Z _ "pair_update"
           Sample.provider p1); [repeat constructor|reflexivity|exact Hstep].
Defined.

Lemma updates_of_distinct_pairs_commute_witness :
  process [(Sample.clock, Sample.envelope "pair_update" Sample.update_1);
           (Sample.clock, Sample.envelope "pair_update" Sample.update_3)]
    Sample.provider
  = process [(Sample.clock, Sample.envelope "pair_update" Sample.update_3);
             (Sample.clock, Sample.envelope "pair_update" Sample.update_1)]
      Sample.provider.
Proof.
  assert ("P1" ≠ "P2") as Hne by discriminate.
  assert ((pid ← Get Sample.update_3 "pair_id"; ToString pid) = Ok "P2") as Hkey
    by reflexivity.
  assert (pair_update_for "P2"
            (Sample.clock, Sample.envelope "pair_update" Sample.update_3)
            Sample.update_3) as H2.
  { split; [|exact Hkey]. eexists. split; [reflexivity|]. split; reflexivity. }
  exact (proj2 (updates_of_distinct_pairs_commute "P1" "P2" _ _ _ _
                  Sample.provider Hne (sample_pair_update Sample.update_1 eq_refl)
                  H2)).
Defined.

Lemma alert_record_keeps_the_other_fields_witness :
  ∃ rec, alert_payload Sample.clock (VObj Sample.alert_with_id) = Ok rec
         ∧ Get rec "id" = Ok (VNum Sample.clock)
         ∧ Get rec "message" = Ok (VStr "7203/7267 diverged").
Proof.
  assert (∃ rec, alert_payload Sample.clock (VObj Sample.alert_with_id) = Ok rec)
    as [rec Hrec].
  { eexists. vm_compute. reflexivity. }
  destruct (alert_record_keeps_the_other_fields _ _ _ Hrec) as (Hid & _ & Hrest).
  exists rec. split; [exact Hrec|]. split; [exact Hid|].
  rewrite (Hrest "message") by discriminate. reflexivity.
Defined.

Lemma notification_follows_permission_witness :
  ∃ p', on_lastMessage Sample.clock Sample.alert_a Sample.provider_granted = Ok p'
        ∧ shown p' = [("Pair Trading Alert: entry_signal", "7203/7267 diverged")].
Proof.
  assert (alert_processed (Some granted) (Sample.clock, Sample.alert_a)
            Sample.record_a) as Halert.
  { exists (VObj (Sample.alert_data "7203/7267 diverged")).
    split; [|split].
    - eexists. split; [reflexivity|]. split; reflexivity.
    - reflexivity.
    - intros _. eexists. reflexivity. }
  destruct (notification_follows_permission (Some granted) Sample.clock
              Sample.alert_a Sample.record_a Sample.provider_granted
              eq_refl Halert)
    as (p' & Hstep & _ & _ & Hshown).
  exists p'. split; [exact Hstep|].
  destruct (Hshown eq_refl) as (data & tb & (m & Hm & _ & Hdata) & Htb & ->).
  injection Hm as <-. vm_compute in Hdata. subst data.
  vm_compute in Htb. injection Htb as <-. reflexivity.
Defined.

Lemma requestNotificationPermission_with_Notification_witness :
  ∃ p', requestNotificationPermission granted Sample.provider_unasked
        = Ok (p', true)
        ∧ window_Notification p' = Some granted.
Proof.
  destruct (requestNotificationPermission_with_Notification granted default_
              Sample.provider_unasked eq_refl)
    as (p' & b & Hreq & Hb & _ & Hanswer & _).
  exists p'. rewrite Hreq. split; [|exact (Hanswer eq_refl)].
  rewrite (proj2 Hb (Hanswer eq_refl)). reflexivity.
Defined.

Lemma frames_go_out_in_call_order_witness :
  snd (send_all [Sample.pong; Sample.heartbeat] Sample.opened) = [true; true]
  ∧ snd (send_all [Sample.pong; Sample.heartbeat] Sample.mounted) = [false; false].
Proof.
  split.
  - rewrite (proj1 (frames_go_out_in_call_order
                      [Sample.pong; Sample.heartbeat] Sample.opened)
               0 (mkWebSocket OPEN []) eq_refl eq_refl eq_refl).
    reflexivity.
  - rewrite (proj2 (frames_go_out_in_call_order
                      [Sample.pong; Sample.heartbeat] Sample.mounted)).
    + reflexivity.
    + intros (ws & w & Hsock & Hw & Hopen). vm_compute in Hsock.
      injection Hsock as <-. vm_compute in Hw. injection Hw as <-.
      discriminate Hopen.
Defined.

Lemma ping_heartbeat_witness :
  sent <$> sockets (Nat.iter 3 (ev_timer 0) Sample.opened)
  = [[ping_frame; ping_frame; ping_frame]].
Proof.
  rewrite (proj1 (ping_heartbeat 0 0 Sample.opened eq_refl)
             (mkWebSocket OPEN []) 3 eq_refl eq_refl).
  reflexivity.
Defined.


Lemma mounted_hook_keeps_connecting_witness :
  length (sockets (cells (Nat.iter 4 render mount))) = 5
  ∧ live_count (cells (Nat.iter 4 render mount)) = 2.
Proof.
  assert (@WebSocket_url_ok Z Z Sample.host = true) as Hurl by reflexivity.
  destruct (mounted_hook_keeps_connecting 4 Hurl) as (Hs & _ & _ & Hlive & _).
  split; [rewrite Hs; reflexivity|exact Hlive].
Defined.

Lemma open_restarts_the_backoff_witness :
  reconnectAttemptsRef Sample.third_attempt = 3
  ∧ reconnectAttemptsRef (ev_open 0 Sample.third_attempt) = 0
  ∧ timer_delay <$> timers (closure 1006 (ev_open 0 Sample.third_attempt))
    = [30000; 1000]%Z.
Proof.
  destruct (open_restarts_the_backoff 1006 0 (mkWebSocket CONNECTING [])
              Sample.third_attempt eq_refl eq_refl eq_refl)
    as (_ & _ & Hzero & _ & Ht & _).
  { discriminate. }
  split; [reflexivity|]. split; [exact Hzero|]. rewrite Ht. reflexivity.
Defined.

(** Two sockets have closed abnormally, so two reconnect timeouts are
    armed and only the second is named by reconnectTimeoutRef: after
    disconnect the first is still active, and its elapse opens a
    transport. *)
Example earlier_timeout_survives_disconnect :
  reconnectTimeoutRef Sample.two_closed = Some 1
  ∧ timer_active <$> timers (disconnect Sample.two_closed) = [true; false]
  ∧ length (sockets (disconnect Sample.two_closed)) = 2
  ∧ length (sockets (ev_timer 0 (disconnect Sample.two_closed))) = 3.
Proof. repeat split; vm_compute; reflexivity. Qed.
